(** * Theme controller (theme.js): a shallow embedding and its properties

    The script is one immediately-invoked function that reads and writes
    three pieces of host state: the [localStorage] entry
    ['theme-preference'], the [data-theme] attribute of the document's root
    element, and the attributes of the optional element with id
    ['theme-toggle'].  It also reads the host's
    [(prefers-color-scheme: dark)] media query.

    The host is modelled as an explicit [World]; every JavaScript function
    of the script is a computation in a state-and-exception monad [M] over
    that world, so that [try]/[catch] and the guards against [null] are
    part of what is verified. *)

From stdpp Require Import base option strings list gmap.

Set Default Proof Using "Type".
Open Scope string_scope.

(** ** JavaScript values that the script handles *)

(** A reference to an element of the document: the root ([<html>]) or the
    [i]-th of its descendants in document order. *)
Inductive NodeRef :=
  | RootRef
  | DescRef (i : nat).

#[global] Instance NodeRef_eq_dec : EqDecision NodeRef.
Proof. solve_decision. Defined.

Inductive value :=
  | JNull
  | JStr (s : string)
  | JElem (r : NodeRef).

#[global] Instance value_eq_dec : EqDecision value.
Proof. solve_decision. Defined.

(** [a === b] on these values: equal strings, the same element, or both
    [null]. *)
Definition strict_eq (a b : value) : bool := bool_decide (a = b).

(** ToBoolean: [null] and the empty string are falsy. *)
Definition truthy (v : value) : bool :=
  match v with
  | JNull => false
  | JStr s => negb (bool_decide (s = ""))
  | JElem _ => true
  end.

(** ToString, as applied by [setAttribute] and [setItem] to their value
    argument. *)
Definition to_string (v : value) : string :=
  match v with
  | JNull => "null"
  | JStr s => s
  | JElem _ => "[object HTMLElement]"
  end.

(** ** The host *)

(** The listeners the script registers are three anonymous functions; they
    are named here by what they are attached to. *)
Inductive Handler :=
  | ClickToggle     (* button 'click': toggleTheme(); updateToggleButton() *)
  | DomReady        (* document 'DOMContentLoaded' *)
  | SystemChange.   (* media query 'change' *)

Record Element := mkElement {
  attributes : gmap string string;
  listeners : list (string * Handler)
}.

(** [localStorage].  Whether an access throws is decided by the host from
    the current contents and the arguments of the call (storage disabled:
    every call; quota exhausted: by what is written). *)
Record Storage := mkStorage {
  items : gmap string string;
  getItem_throws : gmap string string → string → bool;
  setItem_throws : gmap string string → string → string → bool;
  removeItem_throws : gmap string string → string → bool
}.

(** The object returned by [window.matchMedia('(prefers-color-scheme: dark)')]. *)
Record MediaQueryList := mkMediaQueryList {
  matches : bool;
  mq_listeners : list (string * Handler);
  (** Whether the object has the method [addEventListener]; engines that
      predate it offer [addListener] only. *)
  has_addEventListener : bool
}.

Record World := mkWorld {
  localStorage : Storage;
  documentElement : Element;
  descendants : list Element;
  readyState : string;
  document_listeners : list (string * Handler);
  (** [None]: the host has no [window.matchMedia]. *)
  matchMedia : option MediaQueryList
}.

Inductive Exn :=
  | StorageFault   (* SecurityError, QuotaExceededError, ... *)
  | TypeError.     (* a method called on null *)

(** ** State and exception monad *)

Inductive Completion (A : Type) :=
  | Normal (a : A)
  | Throw (e : Exn).
Arguments Normal {A} a.
Arguments Throw {A} e.

Definition M (A : Type) : Type := World → Completion A * World.

Definition ret {A} (a : A) : M A := λ w, (Normal a, w).

Definition bind {A B} (m : M A) (k : A → M B) : M B :=
  λ w, match m w with
       | (Normal a, w') => k a w'
       | (Throw e, w') => (Throw e, w')
       end.

(** [try { body } catch (e) { handler }]: the effects of [body] up to the
    throw are kept. *)
Definition try_catch {A} (body : M A) (handler : Exn → M A) : M A :=
  λ w, match body w with
       | (Normal a, w') => (Normal a, w')
       | (Throw e, w') => handler e w'
       end.

Declare Scope js_scope.
Delimit Scope js_scope with js.
Notation "'let!' x ':=' m 'in' k" := (bind m (λ x, k))
  (at level 10, x name, m at level 100, k at level 200) : js_scope.
Notation "m ';;' k" := (bind m (λ _, k))
  (at level 100, k at level 200, right associativity) : js_scope.
Open Scope js_scope.

(** The world a computation leaves and the way it completes. *)
Definition run {A} (m : M A) (w : World) : World := (m w).2.
Definition completion {A} (m : M A) (w : World) : Completion A := (m w).1.

(** ** Host operations *)

Definition with_localStorage (s : Storage) (w : World) : World :=
  mkWorld s (documentElement w) (descendants w) (readyState w)
          (document_listeners w) (matchMedia w).

Definition with_items (m : gmap string string) (s : Storage) : Storage :=
  mkStorage m (getItem_throws s) (setItem_throws s) (removeItem_throws s).

Definition localStorage_getItem (k : string) : M value :=
  λ w, let s := localStorage w in
       if getItem_throws s (items s) k then (Throw StorageFault, w)
       else (Normal (from_option JStr JNull (items s !! k)), w).

Definition localStorage_setItem (k : string) (v : value) : M unit :=
  λ w, let s := localStorage w in
       if setItem_throws s (items s) k (to_string v) then (Throw StorageFault, w)
       else (Normal (), with_localStorage (with_items (<[k := to_string v]> (items s)) s) w).

Definition localStorage_removeItem (k : string) : M unit :=
  λ w, let s := localStorage w in
       if removeItem_throws s (items s) k then (Throw StorageFault, w)
       else (Normal (), with_localStorage (with_items (delete k (items s)) s) w).

Definition lookup_node (r : NodeRef) (w : World) : option Element :=
  match r with
  | RootRef => Some (documentElement w)
  | DescRef i => descendants w !! i
  end.

Definition update_node (r : NodeRef) (e : Element) (w : World) : World :=
  match r with
  | RootRef =>
      mkWorld (localStorage w) e (descendants w) (readyState w)
              (document_listeners w) (matchMedia w)
  | DescRef i =>
      mkWorld (localStorage w) (documentElement w) (<[i := e]> (descendants w))
              (readyState w) (document_listeners w) (matchMedia w)
  end.

(** A method call on an element: [f] is applied to the receiver's element;
    a receiver that is not an element ([null]) throws a TypeError. *)
Definition on_element {A} (recv : value) (f : NodeRef → Element → M A) : M A :=
  λ w, match recv with
       | JElem r =>
           match lookup_node r w with
           | Some e => f r e w
           | None => (Throw TypeError, w)
           end
       | _ => (Throw TypeError, w)
       end.

Definition getAttribute (recv : value) (name : string) : M value :=
  on_element recv (λ _ e, ret (from_option JStr JNull (attributes e !! name))).

Definition setAttribute (recv : value) (name : string) (v : value) : M unit :=
  on_element recv (λ r e w,
    (Normal (), update_node r (mkElement (<[name := to_string v]> (attributes e)) (listeners e)) w)).

Definition removeAttribute (recv : value) (name : string) : M unit :=
  on_element recv (λ r e w,
    (Normal (), update_node r (mkElement (delete name (attributes e)) (listeners e)) w)).

Definition addEventListener (recv : value) (type : string) (h : Handler) : M unit :=
  on_element recv (λ r e w,
    (Normal (), update_node r (mkElement (attributes e) (listeners e ++ [(type, h)])) w)).

Definition has_id (id : string) (e : Element) : Prop := attributes e !! "id" = Some id.

#[global] Instance has_id_dec id e : Decision (has_id id e).
Proof. unfold has_id. apply _. Defined.

(** [document.getElementById(id)]: the first element in document order whose
    [id] attribute is [id], or [null]. *)
Definition document_getElementById (id : string) : M value :=
  λ w, if decide (has_id id (documentElement w)) then (Normal (JElem RootRef), w)
       else match fst <$> list_find (has_id id) (descendants w) with
            | Some i => (Normal (JElem (DescRef i)), w)
            | None => (Normal JNull, w)
            end.

Definition document_documentElement : M value := ret (JElem RootRef).

Definition document_readyState : M value := λ w, (Normal (JStr (readyState w)), w).

Definition document_addEventListener (type : string) (h : Handler) : M unit :=
  λ w, (Normal (),
        mkWorld (localStorage w) (documentElement w) (descendants w) (readyState w)
                (document_listeners w ++ [(type, h)]) (matchMedia w)).

(** Whether [window.matchMedia] is defined. *)
Definition window_matchMedia : M bool :=
  λ w, (Normal (bool_decide (is_Some (matchMedia w))), w).

(** [window.matchMedia('(prefers-color-scheme: dark)').matches]; calling
    [matchMedia] where it is undefined throws a TypeError. *)
Definition matchMedia_matches : M bool :=
  λ w, match matchMedia w with
       | Some mq => (Normal (matches mq), w)
       | None => (Throw TypeError, w)
       end.

(** [mediaQuery.addEventListener(type, h)] on the object returned by
    [window.matchMedia]: a TypeError where the object has no such method
    (or where there is no [matchMedia] to return it). *)
Definition mediaQuery_addEventListener (type : string) (h : Handler) : M unit :=
  λ w, match matchMedia w with
       | Some mq =>
           if has_addEventListener mq then
             (Normal (),
              mkWorld (localStorage w) (documentElement w) (descendants w) (readyState w)
                      (document_listeners w)
                      (Some (mkMediaQueryList (matches mq) (mq_listeners mq ++ [(type, h)])
                                              (has_addEventListener mq))))
           else (Throw TypeError, w)
       | None => (Throw TypeError, w)
       end.

(** ** theme.js *)

Definition THEME_STORAGE_KEY : string := "theme-preference".
Definition THEME_ATTRIBUTE : string := "data-theme".

Definition getSystemPreference : M value :=
  let! available := window_matchMedia in
  let! dark := (if available then matchMedia_matches else ret false) in
  if dark then ret (JStr "dark") else ret (JStr "light").

Definition getStoredPreference : M value :=
  try_catch (localStorage_getItem THEME_STORAGE_KEY) (λ _, ret JNull).

Definition setTheme (theme : value) : M unit :=
  let! html := document_documentElement in
  if strict_eq theme (JStr "dark") || strict_eq theme (JStr "light") then
    setAttribute html THEME_ATTRIBUTE theme;;
    try_catch (localStorage_setItem THEME_STORAGE_KEY theme) (λ _, ret ())
  else
    removeAttribute html THEME_ATTRIBUTE;;
    try_catch (localStorage_removeItem THEME_STORAGE_KEY) (λ _, ret ()).

Definition getCurrentTheme : M value :=
  let! html := document_documentElement in
  let! dataTheme := getAttribute html THEME_ATTRIBUTE in
  if strict_eq dataTheme (JStr "dark") || strict_eq dataTheme (JStr "light") then
    ret dataTheme
  else getSystemPreference.

Definition initTheme : M unit :=
  let! stored := getStoredPreference in
  if strict_eq stored (JStr "dark") || strict_eq stored (JStr "light") then
    setTheme stored
  else
    let! systemTheme := getSystemPreference in
    let! html := document_documentElement in
    setAttribute html THEME_ATTRIBUTE systemTheme.

Definition toggleTheme : M unit :=
  let! current := getCurrentTheme in
  let! stored := getStoredPreference in
  if strict_eq stored (JStr "dark") then
    setTheme (JStr "light")
  else if strict_eq stored (JStr "light") then
    setTheme (JStr "dark")
  else
    let! systemTheme := getSystemPreference in
    setTheme (if strict_eq systemTheme (JStr "dark") then JStr "light" else JStr "dark").

Definition updateToggleButton : M unit :=
  let! button := document_getElementById "theme-toggle" in
  if negb (truthy button) then ret ()
  else
    let! currentTheme := getCurrentTheme in
    setAttribute button "aria-label"
      (if strict_eq currentTheme (JStr "dark")
       then JStr "Switch to light mode" else JStr "Switch to dark mode");;
    setAttribute button "title"
      (if strict_eq currentTheme (JStr "dark")
       then JStr "Switch to light mode" else JStr "Switch to dark mode").

(** The body shared by the 'DOMContentLoaded' listener and the branch taken
    when the document is already parsed. *)
Definition attachToggle : M unit :=
  let! button := document_getElementById "theme-toggle" in
  (if truthy button then addEventListener button "click" ClickToggle else ret ());;
  updateToggleButton.

Definition onToggleClick : M unit :=
  toggleTheme;;
  updateToggleButton.

Definition onSystemChange : M unit :=
  let! stored := getStoredPreference in
  if negb (truthy stored) then
    let! systemTheme := getSystemPreference in
    let! html := document_documentElement in
    setAttribute html THEME_ATTRIBUTE systemTheme;;
    updateToggleButton
  else ret ().

Definition runHandler (h : Handler) : M unit :=
  match h with
  | ClickToggle => onToggleClick
  | DomReady => attachToggle
  | SystemChange => onSystemChange
  end.

(** The top level of the script. *)
Definition script : M unit :=
  initTheme;;
  (let! rs := document_readyState in
   if strict_eq rs (JStr "loading") then
     document_addEventListener "DOMContentLoaded" DomReady
   else attachToggle);;
  (let! available := window_matchMedia in
   if available then mediaQuery_addEventListener "change" SystemChange
   else ret ()).

(** ** Events of the host *)

(** The system colour scheme changes: the media query's [matches] becomes
    [dark].  The host then invokes the 'change' listeners. *)
Definition set_matches (dark : bool) (w : World) : World :=
  mkWorld (localStorage w) (documentElement w) (descendants w) (readyState w)
          (document_listeners w)
          (match matchMedia w with
           | Some mq => Some (mkMediaQueryList dark (mq_listeners mq)
                                               (has_addEventListener mq))
           | None => None
           end).

(** Any sequence of listener invocations, in order. *)
Definition runHandlers (hs : list Handler) : M unit :=
  foldr (λ h k, runHandler h;; k) (ret ()) hs.

(** ** Observations used in the statements *)

Definition stored_entry (w : World) : option string :=
  items (localStorage w) !! THEME_STORAGE_KEY.

Definition theme_attribute (w : World) : option string :=
  attributes (documentElement w) !! THEME_ATTRIBUTE.

(** The stored preference as the script can read it, the system preference
    and the effective theme, as functions of the world. *)
Definition read_stored (w : World) : value :=
  let s := localStorage w in
  if getItem_throws s (items s) THEME_STORAGE_KEY then JNull
  else from_option JStr JNull (stored_entry w).

Definition system_theme (w : World) : string :=
  if from_option matches false (matchMedia w) then "dark" else "light".

Definition is_theme (v : value) : bool :=
  strict_eq v (JStr "dark") || strict_eq v (JStr "light").

Definition current_theme (w : World) : value :=
  let dataTheme := from_option JStr JNull (theme_attribute w) in
  if is_theme dataTheme then dataTheme else JStr (system_theme w).

Definition opposite (x : string) : string :=
  if bool_decide (x = "dark") then "light" else "dark".

Definition set_root_attribute (name v : string) (w : World) : World :=
  update_node RootRef
    (mkElement (<[name := v]> (attributes (documentElement w)))
               (listeners (documentElement w))) w.

Definition remove_root_attribute (name : string) (w : World) : World :=
  update_node RootRef
    (mkElement (delete name (attributes (documentElement w)))
               (listeners (documentElement w))) w.

(** What [localStorage.setItem] and [removeItem] leave inside a [try] whose
    [catch] is empty. *)
Definition store_best_effort (k v : string) (w : World) : World :=
  let s := localStorage w in
  if setItem_throws s (items s) k v then w
  else with_localStorage (with_items (<[k := v]> (items s)) s) w.

Definition remove_best_effort (k : string) (w : World) : World :=
  let s := localStorage w in
  if removeItem_throws s (items s) k then w
  else with_localStorage (with_items (delete k (items s)) s) w.

Definition storage_reliable (s : Storage) : Prop :=
  (∀ m k, getItem_throws s m k = false) ∧
  (∀ m k v, setItem_throws s m k v = false) ∧
  (∀ m k, removeItem_throws s m k = false).

(** The toggle control of a world, as [updateToggleButton] finds it. *)
Definition toggle_control (w : World) : Completion value :=
  completion (document_getElementById "theme-toggle") w.

Definition element_by_id (id : string) (w : World) : value :=
  if decide (has_id id (documentElement w)) then JElem RootRef
  else from_option (λ i, JElem (DescRef i)) JNull
         (fst <$> list_find (has_id id) (descendants w)).

Definition set_node_attribute (r : NodeRef) (name v : string) (w : World) : World :=
  match lookup_node r w with
  | Some e => update_node r (mkElement (<[name := v]> (attributes e)) (listeners e)) w
  | None => w
  end.

Definition label_for (theme : value) : string :=
  if strict_eq theme (JStr "dark") then "Switch to light mode" else "Switch to dark mode".

(** ** Sample hosts *)

Definition reliable_storage (m : gmap string string) : Storage :=
  mkStorage m (λ _ _, false) (λ _ _ _, false) (λ _ _, false).

(** Storage that refuses every access, as when it is disabled. *)
Definition disabled_storage (m : gmap string string) : Storage :=
  mkStorage m (λ _ _, true) (λ _ _ _, true) (λ _ _, true).

Definition toggle_button : Element :=
  mkElement {[ "id" := "theme-toggle" ]} [].

(** A page with the toggle control as its second descendant. *)
Definition page (s : Storage) (dark : bool) : World :=
  mkWorld s (mkElement ∅ []) [mkElement ∅ []; toggle_button] "loading" []
          (Some (mkMediaQueryList dark [] true)).

(** The same page on an engine whose media query has no
    [addEventListener]. *)
Definition legacy_page (s : Storage) (dark : bool) : World :=
  mkWorld s (mkElement ∅ []) [mkElement ∅ []; toggle_button] "loading" []
          (Some (mkMediaQueryList dark [] false)).

(** A page without the toggle control, on a host without [matchMedia]. *)
Definition bare_page (s : Storage) : World :=
  mkWorld s (mkElement ∅ []) [mkElement ∅ []] "complete" [] None.

(** ** Dispatch of events by the host *)

(** The listeners registered for [type], invoked in the order of their
    registration.  (No listener of this script throws, so what the host
    does with a listener's exception plays no part.) *)
Definition dispatch (type : string) (ls : list (string * Handler)) : M unit :=
  runHandlers (snd <$> filter (λ p, p.1 = type) ls).

Inductive Event :=
  | Click (target : NodeRef)
  | DOMContentLoaded
  | SystemPreferenceChanged (dark : bool).

Definition set_readyState (s : string) (w : World) : World :=
  mkWorld (localStorage w) (documentElement w) (descendants w) s
          (document_listeners w) (matchMedia w).

Definition fire (ev : Event) : M unit :=
  λ w, match ev with
       | Click target =>
           match lookup_node target w with
           | Some e => dispatch "click" (listeners e) w
           | None => (Normal (), w)
           end
       | DOMContentLoaded =>
           dispatch "DOMContentLoaded" (document_listeners w)
                    (set_readyState "interactive" w)
       | SystemPreferenceChanged dark =>
           match matchMedia w with
           | Some mq => dispatch "change" (mq_listeners mq) (set_matches dark w)
           | None => (Normal (), w)
           end
       end.

Definition fireAll (evs : list Event) : M unit :=
  foldr (λ ev k, fire ev;; k) (ret ()) evs.

(** ** Predicates on worlds used in the statements *)

(** The [data-theme] attribute holds one of the two themes. *)
Definition valid_attribute (w : World) : Prop :=
  theme_attribute w = Some "dark" ∨ theme_attribute w = Some "light".

(** The stored entry is absent or one of the two themes. *)
Definition well_formed_entry (w : World) : Prop :=
  stored_entry w = None ∨ stored_entry w = Some "dark" ∨ stored_entry w = Some "light".

(** The [data-theme] attribute is the stored preference when that is a
    theme, and the system preference otherwise. *)
Definition in_sync (w : World) : Prop :=
  ∃ stored sys,
    completion getStoredPreference w = Normal stored ∧
    completion getSystemPreference w = Normal (JStr sys) ∧
    theme_attribute w = Some (if is_theme stored then to_string stored else sys).

(** The toggle control, where there is one, announces the switch away from
    the current theme in both its [aria-label] and its [title]. *)
Definition label_synced (w : World) : Prop :=
  ∀ r, toggle_control w = Normal (JElem r) →
    ∃ current,
      completion getCurrentTheme w = Normal current ∧
      ∀ name, name = "aria-label" ∨ name = "title" →
        completion (getAttribute (JElem r) name) w =
          Normal (if strict_eq current (JStr "dark")
                  then JStr "Switch to light mode" else JStr "Switch to dark mode").

(** How the script may change the storage: the fault behaviour and every
    other key stay; the entry under the script's key stays or becomes one
    of the two themes. *)
Definition storage_evolves (s s' : Storage) : Prop :=
  getItem_throws s' = getItem_throws s ∧
  setItem_throws s' = setItem_throws s ∧
  removeItem_throws s' = removeItem_throws s ∧
  (∀ k, k ≠ THEME_STORAGE_KEY → items s' !! k = items s !! k) ∧
  (items s' !! THEME_STORAGE_KEY = items s !! THEME_STORAGE_KEY ∨
   items s' !! THEME_STORAGE_KEY = Some "dark" ∨
   items s' !! THEME_STORAGE_KEY = Some "light").

(** The media query, where the host has one, can take the script's
    listener: it has [addEventListener]. *)
Definition change_listener_supported (w : World) : Prop :=
  ∀ mq, matchMedia w = Some mq → has_addEventListener mq = true.

(** The storage never faults and its entry is absent or a theme. *)
Definition storage_in_order (w : World) : Prop :=
  storage_reliable (localStorage w) ∧ well_formed_entry w.

(** The last listener of the media query is the script's 'change' listener. *)
Definition change_listener_installed (w : World) : Prop :=
  ∀ mq, matchMedia w = Some mq →
    ∃ ls : list (string * Handler),
      mq_listeners mq = (ls ++ [("change", SystemChange)])%list.

(** The state the script keeps between events when the storage is in
    order. *)
Definition steady (w : World) : Prop :=
  storage_in_order w ∧ change_listener_installed w ∧ in_sync w.

(** The script's DOMContentLoaded listener is registered on the document. *)
Definition ready_listener_installed (w : World) : Prop :=
  ("DOMContentLoaded", DomReady) ∈ document_listeners w.

(** ** Views used in the proofs about events *)

(** The part of the world that the theme functions read. *)
Definition theme_state (w : World) : Storage * option string * option MediaQueryList :=
  (localStorage w, theme_attribute w, matchMedia w).

Definition install_ready_listener (w : World) : World :=
  mkWorld (localStorage w) (documentElement w) (descendants w) (readyState w)
          (document_listeners w ++ [("DOMContentLoaded", DomReady)]) (matchMedia w).

Definition install_change_listener (w : World) : World :=
  match matchMedia w with
  | Some mq =>
      if has_addEventListener mq then
        mkWorld (localStorage w) (documentElement w) (descendants w) (readyState w)
                (document_listeners w)
                (Some (mkMediaQueryList (matches mq)
                                        (mq_listeners mq ++ [("change", SystemChange)])
                                        (has_addEventListener mq)))
      else w
  | None => w
  end.

Definition add_node_listener (r : NodeRef) (type : string) (h : Handler) (w : World) : World :=
  match lookup_node r w with
  | Some e => update_node r (mkElement (attributes e) (listeners e ++ [(type, h)])) w
  | None => w
  end.

(** The stored preference when it is a theme, the system preference
    otherwise. *)
Definition preferred_theme (w : World) : string :=
  if is_theme (read_stored w) then to_string (read_stored w) else system_theme w.

(** The stored preference, when it is a theme, is what the attribute holds. *)
Definition stored_theme_shown (w : World) : Prop :=
  is_theme (read_stored w) = true → theme_attribute w = Some (to_string (read_stored w)).

(** The listeners registered on an element. *)
Definition node_listeners (r : NodeRef) (w : World) : option (list (string * Handler)) :=
  listeners <$> lookup_node r w.

(** The theme that [toggleTheme] applies. *)
Definition next_theme (w : World) : string :=
  if strict_eq (read_stored w) (JStr "dark") then "light"
  else if strict_eq (read_stored w) (JStr "light") then "dark"
  else opposite (system_theme w).

(** * Equations of the operations *)

Section Equations.
Implicit Types (w : World) (v : value) (x : string).

Lemma getSystemPreference_eq w :
  getSystemPreference w = (Normal (JStr (system_theme w)), w).
Proof.
  unfold getSystemPreference, bind, window_matchMedia, matchMedia_matches,
    system_theme, ret.
  destruct (matchMedia w) as [mq|] eqn:E; simpl; [|done].
  rewrite E. by destruct (matches mq).
Qed.

Lemma system_theme_cases w : system_theme w = "dark" ∨ system_theme w = "light".
Proof. unfold system_theme. destruct (from_option _ _ _); auto. Qed.

Lemma getStoredPreference_eq w :
  getStoredPreference w = (Normal (read_stored w), w).
Proof.
  unfold getStoredPreference, try_catch, localStorage_getItem, read_stored, stored_entry.
  cbv zeta. by destruct (getItem_throws _ _ _).
Qed.

Lemma getCurrentTheme_eq w :
  getCurrentTheme w = (Normal (current_theme w), w).
Proof.
  unfold getCurrentTheme, current_theme, is_theme, theme_attribute.
  unfold bind at 1. unfold document_documentElement, ret.
  unfold bind, getAttribute, on_element, ret; simpl.
  destruct (strict_eq _ _ || strict_eq _ _); [done|].
  apply getSystemPreference_eq.
Qed.

Lemma is_theme_true v : is_theme v = true ↔ v = JStr "dark" ∨ v = JStr "light".
Proof.
  unfold is_theme, strict_eq.
  rewrite orb_true_iff, !bool_decide_eq_true. tauto.
Qed.

Lemma is_theme_JStr x : is_theme (JStr x) = true ↔ x = "dark" ∨ x = "light".
Proof.
  rewrite is_theme_true.
  split; (intros [H | H]; [left | right]; congruence).
Qed.

Lemma current_theme_cases w :
  current_theme w = JStr "dark" ∨ current_theme w = JStr "light".
Proof.
  unfold current_theme. cbv zeta.
  destruct (is_theme _) eqn:E.
  - by apply is_theme_true.
  - destruct (system_theme_cases w) as [-> | ->]; auto.
Qed.

Lemma setTheme_eq v w :
  setTheme v w =
    (Normal (),
     if is_theme v
     then store_best_effort THEME_STORAGE_KEY (to_string v)
            (set_root_attribute THEME_ATTRIBUTE (to_string v) w)
     else remove_best_effort THEME_STORAGE_KEY
            (remove_root_attribute THEME_ATTRIBUTE w)).
Proof.
  unfold setTheme. unfold bind at 1. unfold document_documentElement, ret.
  fold (is_theme v). destruct (is_theme v).
  - unfold bind, setAttribute, on_element, try_catch, localStorage_setItem,
      store_best_effort, set_root_attribute, ret; simpl.
    by destruct (setItem_throws _ _ _ _).
  - unfold bind, removeAttribute, on_element, try_catch, localStorage_removeItem,
      remove_best_effort, remove_root_attribute, ret; simpl.
    by destruct (removeItem_throws _ _ _).
Qed.

Lemma initTheme_eq w :
  initTheme w =
    if is_theme (read_stored w) then setTheme (read_stored w) w
    else (Normal (), set_root_attribute THEME_ATTRIBUTE (system_theme w) w).
Proof.
  unfold initTheme. unfold bind at 1. rewrite getStoredPreference_eq.
  fold (is_theme (read_stored w)). destruct (is_theme _); [done|].
  unfold bind. by rewrite getSystemPreference_eq.
Qed.

Lemma toggleTheme_eq w :
  toggleTheme w =
    setTheme (JStr (if strict_eq (read_stored w) (JStr "dark") then "light"
                    else if strict_eq (read_stored w) (JStr "light") then "dark"
                    else opposite (system_theme w))) w.
Proof.
  unfold toggleTheme. unfold bind at 1. rewrite getCurrentTheme_eq.
  unfold bind at 1. rewrite getStoredPreference_eq.
  destruct (strict_eq (read_stored w) (JStr "dark")); [done|].
  destruct (strict_eq (read_stored w) (JStr "light")); [done|].
  unfold bind. rewrite getSystemPreference_eq.
  unfold opposite, strict_eq.
  destruct (system_theme_cases w) as [-> | ->]; reflexivity.
Qed.

End Equations.

(** * The document: lookup by id under attribute updates *)

Section Document.
Implicit Types (w : World) (r : NodeRef) (e : Element).

Lemma list_find_insert_iff {A} (P : A → Prop) `{!∀ a, Decision (P a)}
    (l : list A) (i : nat) (a b : A) :
  l !! i = Some a → (P a ↔ P b) →
  fst <$> list_find P (<[i := b]> l) = fst <$> list_find P l.
Proof.
  revert i. induction l as [|c l IH]; intros i Hi Hab; [done|].
  destruct i as [|i]; simpl in *.
  - injection Hi as ->.
    destruct (decide (P b)), (decide (P a)); try tauto; done.
  - destruct (decide (P c)); [done|].
    rewrite <- !option_fmap_compose.
    specialize (IH i Hi Hab).
    destruct (list_find P (<[i:=b]> l)) as [[? ?]|],
             (list_find P l) as [[? ?]|]; simpl in *; congruence.
Qed.

Lemma document_getElementById_eq id w :
  document_getElementById id w = (Normal (element_by_id id w), w).
Proof.
  unfold document_getElementById, element_by_id.
  destruct (decide _); [done|]. by destruct (fst <$> _).
Qed.

Lemma element_by_id_cases id w :
  element_by_id id w = JNull ∨
  ∃ r e, element_by_id id w = JElem r ∧ lookup_node r w = Some e.
Proof.
  unfold element_by_id. destruct (decide _).
  - right. by exists RootRef, (documentElement w).
  - destruct (list_find _ _) as [[i e]|] eqn:E; simpl; [|by left].
    right. exists (DescRef i), e. split; [done|].
    by apply list_find_Some in E as [? _].
Qed.

Lemma lookup_update_node r e w :
  is_Some (lookup_node r w) → lookup_node r (update_node r e w) = Some e.
Proof.
  destruct r as [|i]; simpl; [done|]. intros Hi.
  apply list_lookup_insert_eq. by apply lookup_lt_is_Some.
Qed.

Lemma element_by_id_update id r e e' w :
  lookup_node r w = Some e →
  attributes e' !! "id" = attributes e !! "id" →
  element_by_id id (update_node r e' w) = element_by_id id w.
Proof.
  intros Hr Hid. unfold element_by_id.
  destruct r as [|i]; simpl in *.
  - injection Hr as <-.
    do 2 case_decide; unfold has_id in *; congruence.
  - destruct (decide _); [done|]. f_equal.
    eapply list_find_insert_iff; [done|]. unfold has_id. by rewrite Hid.
Qed.

Lemma element_by_id_set_attribute id r name x w :
  name ≠ "id" →
  element_by_id id (set_node_attribute r name x w) = element_by_id id w.
Proof.
  intros Hne. unfold set_node_attribute.
  destruct (lookup_node r w) as [e|] eqn:E; [|done].
  eapply element_by_id_update; [done|]. simpl. by rewrite lookup_insert_ne.
Qed.

Lemma setAttribute_eq r name v w :
  is_Some (lookup_node r w) →
  setAttribute (JElem r) name v w =
    (Normal (), set_node_attribute r name (to_string v) w).
Proof.
  intros [e He]. unfold setAttribute, on_element, set_node_attribute.
  by rewrite He.
Qed.

Lemma lookup_set_node_attribute r name x w :
  lookup_node r (set_node_attribute r name x w) =
    (λ e, mkElement (<[name := x]> (attributes e)) (listeners e)) <$> lookup_node r w.
Proof.
  unfold set_node_attribute.
  destruct (lookup_node r w) as [e|] eqn:E; simpl; [|done].
  apply lookup_update_node. by rewrite E.
Qed.

Lemma set_root_attribute_eq name x w :
  set_root_attribute name x w = set_node_attribute RootRef name x w.
Proof. reflexivity. Qed.

Lemma theme_attribute_set_node r name x w :
  name ≠ THEME_ATTRIBUTE →
  theme_attribute (set_node_attribute r name x w) = theme_attribute w.
Proof.
  intros Hne. unfold set_node_attribute, theme_attribute.
  destruct (lookup_node r w) as [e|] eqn:E; [|done].
  destruct r; simpl in *; [|done].
  injection E as <-. by rewrite lookup_insert_ne.
Qed.

Lemma matchMedia_set_node r name x w :
  matchMedia (set_node_attribute r name x w) = matchMedia w.
Proof.
  unfold set_node_attribute. destruct (lookup_node r w); [|done]. by destruct r.
Qed.

Lemma localStorage_set_node r name x w :
  localStorage (set_node_attribute r name x w) = localStorage w.
Proof.
  unfold set_node_attribute. destruct (lookup_node r w); [|done]. by destruct r.
Qed.

Lemma updateToggleButton_eq w :
  updateToggleButton w =
    (Normal (),
     match element_by_id "theme-toggle" w with
     | JElem r =>
         set_node_attribute r "title" (label_for (current_theme w))
           (set_node_attribute r "aria-label" (label_for (current_theme w)) w)
     | _ => w
     end).
Proof.
  unfold updateToggleButton. unfold bind at 1.
  rewrite document_getElementById_eq.
  destruct (element_by_id_cases "theme-toggle" w) as [-> | (r & e & -> & Hr)]; [done|].
  simpl. unfold bind at 1. rewrite getCurrentTheme_eq.
  unfold bind. rewrite setAttribute_eq by (by rewrite Hr).
  rewrite setAttribute_eq.
  - unfold label_for. by destruct (strict_eq _ _).
  - rewrite lookup_set_node_attribute, Hr. by eexists.
Qed.

End Document.

(** * No operation of the script throws *)

Section Completes.
Implicit Types (w : World) (v : value).

Lemma bind_normal {A B} (m : M A) (k : A → M B) w a :
  completion m w = Normal a → bind m k w = k a (run m w).
Proof.
  unfold completion, run, bind. destruct (m w) as [c w']; simpl. by intros ->.
Qed.

Lemma getStoredPreference_normal w :
  ∃ v, completion getStoredPreference w = Normal v.
Proof. unfold completion. rewrite getStoredPreference_eq. by eexists. Qed.

Lemma setTheme_normal v w : completion (setTheme v) w = Normal ().
Proof. unfold completion. by rewrite setTheme_eq. Qed.

Lemma initTheme_normal w : completion initTheme w = Normal ().
Proof.
  unfold completion. rewrite initTheme_eq.
  destruct (is_theme _); [|done]. apply setTheme_normal.
Qed.

Lemma toggleTheme_normal w : completion toggleTheme w = Normal ().
Proof. unfold completion. rewrite toggleTheme_eq. apply setTheme_normal. Qed.

Lemma updateToggleButton_normal w : completion updateToggleButton w = Normal ().
Proof. unfold completion. by rewrite updateToggleButton_eq. Qed.

Lemma attachToggle_normal w : completion attachToggle w = Normal ().
Proof.
  unfold completion, attachToggle. unfold bind at 1.
  rewrite document_getElementById_eq.
  destruct (element_by_id_cases "theme-toggle" w) as [-> | (r & e & -> & Hr)]; simpl.
  - unfold bind, ret. apply updateToggleButton_normal.
  - unfold bind, addEventListener, on_element. rewrite Hr.
    apply updateToggleButton_normal.
Qed.

Lemma onToggleClick_normal w : completion onToggleClick w = Normal ().
Proof.
  unfold completion, onToggleClick.
  rewrite (bind_normal _ _ _ _ (toggleTheme_normal w)).
  apply updateToggleButton_normal.
Qed.

Lemma onSystemChange_normal w : completion onSystemChange w = Normal ().
Proof.
  unfold completion, onSystemChange. unfold bind at 1.
  rewrite getStoredPreference_eq.
  destruct (truthy _); simpl; [done|].
  unfold bind at 1. rewrite getSystemPreference_eq.
  unfold bind at 1. unfold document_documentElement, ret.
  unfold bind. rewrite setAttribute_eq by by eexists.
  apply updateToggleButton_normal.
Qed.

Lemma runHandler_normal h w : completion (runHandler h) w = Normal ().
Proof.
  destruct h; simpl;
    [apply onToggleClick_normal | apply attachToggle_normal | apply onSystemChange_normal].
Qed.

Lemma matchMedia_initTheme w : matchMedia (run initTheme w) = matchMedia w.
Proof.
  unfold run. rewrite initTheme_eq. destruct (is_theme _); [|done].
  rewrite setTheme_eq. simpl.
  unfold store_best_effort, remove_best_effort. cbv zeta.
  destruct (is_theme _); [by destruct (setItem_throws _ _ _ _)
                         | by destruct (removeItem_throws _ _ _)].
Qed.

(** After [initTheme], the script runs to the registration of the 'change'
    listener without throwing; [w2] is the world it has reached there. *)
Lemma script_wiring w1 :
  ∃ w2, bind document_readyState (λ rs,
            if strict_eq rs (JStr "loading")
            then document_addEventListener "DOMContentLoaded" DomReady
            else attachToggle) w1 = (Normal (), w2) ∧
        matchMedia w2 = matchMedia w1.
Proof.
  unfold bind at 1, document_readyState.
  destruct (strict_eq _ _).
  - by eexists.
  - exists (run attachToggle w1).
    pose proof (attachToggle_normal w1) as H. unfold completion, run in *.
    destruct (attachToggle w1) as [c w2] eqn:E; simpl in *. subst c. split; [done|].
    revert E. unfold attachToggle. unfold bind at 1.
    rewrite document_getElementById_eq.
    destruct (element_by_id_cases "theme-toggle" w1) as [-> | (r & e & -> & Hr)]; simpl.
    + unfold bind, ret. rewrite updateToggleButton_eq. intros [= <-].
      destruct (element_by_id "theme-toggle" w1); [done | done |].
      by rewrite !matchMedia_set_node.
    + unfold bind, addEventListener, on_element. rewrite Hr.
      rewrite updateToggleButton_eq. intros [= <-].
      destruct (element_by_id "theme-toggle" _);
        rewrite ?matchMedia_set_node; by destruct r.
Qed.

Lemma script_completion w :
  completion script w =
    match matchMedia w with
    | Some mq => if has_addEventListener mq then Normal () else Throw TypeError
    | None => Normal ()
    end.
Proof.
  destruct (script_wiring (run initTheme w)) as (w2 & Hw2 & Hm).
  rewrite matchMedia_initTheme in Hm.
  unfold completion, script.
  rewrite (bind_normal _ _ _ _ (initTheme_normal w)).
  unfold bind at 1. rewrite Hw2.
  unfold bind, window_matchMedia, mediaQuery_addEventListener, ret. rewrite <- Hm.
  destruct (matchMedia w2) as [mq|] eqn:E; simpl; [|done].
  rewrite E. by destruct (has_addEventListener mq).
Qed.

Lemma script_normal w :
  change_listener_supported w → completion script w = Normal ().
Proof.
  intros Hsup. rewrite script_completion.
  destruct (matchMedia w) as [mq|] eqn:E; [|done]. by rewrite (Hsup mq).
Qed.

End Completes.

(** * Effects of [setTheme] on the attribute and the stored entry *)

Section SetTheme.
Implicit Types (w : World) (v : value) (x : string).

Lemma stored_is w v :
  completion getStoredPreference w = Normal v ↔ read_stored w = v.
Proof.
  unfold completion. rewrite getStoredPreference_eq. simpl.
  split; [by intros [= ->] | by intros ->].
Qed.

Lemma system_is w x :
  completion getSystemPreference w = Normal (JStr x) ↔ system_theme w = x.
Proof.
  unfold completion. rewrite getSystemPreference_eq. simpl.
  split; [by intros [= ->] | by intros ->].
Qed.

Lemma current_is w v :
  completion getCurrentTheme w = Normal v ↔ current_theme w = v.
Proof.
  unfold completion. rewrite getCurrentTheme_eq. simpl.
  split; [by intros [= ->] | by intros ->].
Qed.

Lemma read_stored_entry w x :
  read_stored w = JStr x → stored_entry w = Some x.
Proof.
  unfold read_stored. cbv zeta. destruct (getItem_throws _ _ _); [done|].
  destruct (stored_entry w); simpl; congruence.
Qed.

Lemma run_setTheme_theme x w :
  is_theme (JStr x) = true →
  run (setTheme (JStr x)) w =
    store_best_effort THEME_STORAGE_KEY x (set_root_attribute THEME_ATTRIBUTE x w).
Proof. intros Hx. unfold run. by rewrite setTheme_eq, Hx. Qed.

Lemma theme_attribute_store k x w :
  theme_attribute (store_best_effort k x w) = theme_attribute w.
Proof. unfold store_best_effort. cbv zeta. by destruct (setItem_throws _ _ _ _). Qed.

Lemma theme_attribute_remove k w :
  theme_attribute (remove_best_effort k w) = theme_attribute w.
Proof. unfold remove_best_effort. cbv zeta. by destruct (removeItem_throws _ _ _). Qed.

Lemma theme_attribute_set_root x w :
  theme_attribute (set_root_attribute THEME_ATTRIBUTE x w) = Some x.
Proof. unfold theme_attribute; simpl. apply lookup_insert_eq. Qed.

Lemma theme_attribute_remove_root w :
  theme_attribute (remove_root_attribute THEME_ATTRIBUTE w) = None.
Proof. unfold theme_attribute; simpl. apply lookup_delete_eq. Qed.

Lemma theme_attribute_setTheme x w :
  is_theme (JStr x) = true →
  theme_attribute (run (setTheme (JStr x)) w) = Some x.
Proof.
  intros Hx. rewrite run_setTheme_theme by done.
  by rewrite theme_attribute_store, theme_attribute_set_root.
Qed.

Lemma stored_entry_setTheme x w :
  is_theme (JStr x) = true →
  setItem_throws (localStorage w) (items (localStorage w)) THEME_STORAGE_KEY x = false →
  stored_entry (run (setTheme (JStr x)) w) = Some x.
Proof.
  intros Hx Hok. rewrite run_setTheme_theme by done.
  unfold store_best_effort, stored_entry; simpl. rewrite Hok; simpl.
  apply lookup_insert_eq.
Qed.

(** Writing back the value that is already stored changes nothing in the
    storage, whether the write succeeds or not. *)
Lemma localStorage_setTheme_same x w :
  is_theme (JStr x) = true →
  stored_entry w = Some x →
  localStorage (run (setTheme (JStr x)) w) = localStorage w.
Proof.
  intros Hx Hs. rewrite run_setTheme_theme by done.
  unfold store_best_effort, stored_entry in *; simpl.
  destruct (setItem_throws _ _ _ _); simpl; [done|].
  rewrite insert_id by done. by destruct (localStorage w).
Qed.

End SetTheme.

(** * Properties of the theme controller *)

(** C1.  [toggleTheme] follows the four-case table.  The stored preference
    is the value [getStoredPreference] returns and the system preference the
    value [getSystemPreference] returns.  Provided [localStorage.setItem]
    succeeds: stored 'dark' gives a stored entry and a [data-theme]
    attribute of 'light'; stored 'light' gives 'dark'; no stored preference
    gives the opposite of the system preference. *)
Theorem toggleTheme_table (w : World) :
  (∀ x, setItem_throws (localStorage w) (items (localStorage w)) THEME_STORAGE_KEY x = false) →
  let stored := completion getStoredPreference w in
  let system := completion getSystemPreference w in
  let w' := run toggleTheme w in
  (stored = Normal (JStr "dark") →
     stored_entry w' = Some "light" ∧ theme_attribute w' = Some "light") ∧
  (stored = Normal (JStr "light") →
     stored_entry w' = Some "dark" ∧ theme_attribute w' = Some "dark") ∧
  (stored = Normal JNull → system = Normal (JStr "dark") →
     stored_entry w' = Some "light" ∧ theme_attribute w' = Some "light") ∧
  (stored = Normal JNull → system = Normal (JStr "light") →
     stored_entry w' = Some "dark" ∧ theme_attribute w' = Some "dark").
Proof.
  intros Hok stored system w'. subst stored system w'.
  unfold run at 1 2 3 4 5 6 7 8. rewrite toggleTheme_eq.
  split; [|split; [|split]]; intros Hs%stored_is; try intros Hy%system_is;
    rewrite Hs; try rewrite Hy; simpl;
    (split; [by apply stored_entry_setTheme | by apply theme_attribute_setTheme]).
Qed.

Lemma toggleTheme_table_witness :
  let go s dark := let w := run toggleTheme (page (reliable_storage s) dark) in
                   (stored_entry w, theme_attribute w) in
  go {[ THEME_STORAGE_KEY := "dark" ]} true = (Some "light", Some "light") ∧
  go {[ THEME_STORAGE_KEY := "light" ]} true = (Some "dark", Some "dark") ∧
  go ∅ true = (Some "light", Some "light") ∧
  go ∅ false = (Some "dark", Some "dark").
Proof.
  cbv zeta.
  pose proof (toggleTheme_table
    (page (reliable_storage {[ THEME_STORAGE_KEY := "dark" ]}) true) (λ _, eq_refl)) as (H1 & _).
  pose proof (toggleTheme_table
    (page (reliable_storage {[ THEME_STORAGE_KEY := "light" ]}) true) (λ _, eq_refl)) as (_ & H2 & _).
  pose proof (toggleTheme_table
    (page (reliable_storage ∅) true) (λ _, eq_refl)) as (_ & _ & H3 & _).
  pose proof (toggleTheme_table
    (page (reliable_storage ∅) false) (λ _, eq_refl)) as (_ & _ & _ & H4).
  destruct (H1 eq_refl) as [-> ->].
  destruct (H2 eq_refl) as [-> ->].
  destruct (H3 eq_refl eq_refl) as [-> ->].
  destruct (H4 eq_refl eq_refl) as [-> ->].
  repeat split.
Defined.

(** ** Values outside {dark, light} *)

Lemma is_theme_false (v : value) :
  is_theme v = false ↔ v ≠ JStr "dark" ∧ v ≠ JStr "light".
Proof.
  unfold is_theme, strict_eq.
  rewrite orb_false_iff, !bool_decide_eq_false. tauto.
Qed.

Lemma read_stored_unset (w : World) :
  stored_entry w ≠ Some "dark" → stored_entry w ≠ Some "light" →
  is_theme (read_stored w) = false.
Proof.
  intros Hd Hl. apply is_theme_false.
  split; intros H%read_stored_entry; contradiction.
Qed.

Lemma initTheme_unset (w : World) :
  is_theme (read_stored w) = false →
  initTheme w = (Normal (), set_root_attribute THEME_ATTRIBUTE (system_theme w) w).
Proof. intros H. by rewrite initTheme_eq, H. Qed.

Lemma toggleTheme_unset (w : World) :
  is_theme (read_stored w) = false →
  toggleTheme w = setTheme (JStr (opposite (system_theme w))) w.
Proof.
  intros [Hd Hl]%is_theme_false. rewrite toggleTheme_eq. unfold strict_eq.
  by rewrite !bool_decide_eq_false_2.
Qed.

Lemma current_theme_fallback (w : World) :
  theme_attribute w ≠ Some "dark" → theme_attribute w ≠ Some "light" →
  current_theme w = JStr (system_theme w).
Proof.
  intros Hd Hl. unfold current_theme. cbv zeta.
  destruct (is_theme _) eqn:E; [|done].
  apply is_theme_true in E.
  destruct (theme_attribute w); simpl in E; destruct E; congruence.
Qed.

(** C2.  Here the code departs from the claim, and from the docstring of
    [getStoredPreference] ("'dark', 'light', or null if not set"): with the
    entry "blue" in a readable storage, [getStoredPreference] returns
    "blue", not the absent value.  Its callers then disagree on such a
    value: [initTheme] and [toggleTheme] test membership in the two themes,
    the 'change' listener tests only [!stored]. *)
Lemma getStoredPreference_returns_corrupted_entry :
  let w := page (reliable_storage {[ THEME_STORAGE_KEY := "blue" ]}) false in
  stored_entry w = Some "blue" ∧
  completion getStoredPreference w = Normal (JStr "blue") ∧
  completion getStoredPreference w ≠ Normal JNull.
Proof. repeat split. discriminate. Qed.

(** C3.  With the stored preference 'dark' (as [getStoredPreference]
    returns it), the media query's 'change' listener changes nothing: after the system preference becomes [dark]
    (any value) and the listener has run, the [data-theme] attribute and the
    stored entry are what they were. *)
Theorem system_change_suppressed (w : World) (dark : bool) :
  completion getStoredPreference w = Normal (JStr "dark") →
  let w' := run onSystemChange (set_matches dark w) in
  completion onSystemChange (set_matches dark w) = Normal () ∧
  theme_attribute w' = theme_attribute w ∧
  stored_entry w' = stored_entry w ∧
  w' = set_matches dark w.
Proof.
  intros Hs%stored_is w'. subst w'.
  assert (onSystemChange (set_matches dark w) = (Normal (), set_matches dark w)) as E.
  { unfold onSystemChange. unfold bind at 1. rewrite getStoredPreference_eq.
    change (read_stored (set_matches dark w)) with (read_stored w).
    by rewrite Hs. }
  unfold completion, run. by rewrite E.
Qed.

Lemma system_change_suppressed_witness :
  let w := page (reliable_storage {[ THEME_STORAGE_KEY := "dark" ]}) true in
  let w' := run onSystemChange (set_matches false (run initTheme w)) in
  theme_attribute w' = Some "dark" ∧ stored_entry w' = Some "dark".
Proof.
  cbv zeta.
  destruct (system_change_suppressed
    (run initTheme (page (reliable_storage {[ THEME_STORAGE_KEY := "dark" ]}) true))
    false) as (_ & -> & -> & _); [by vm_compute|].
  split; by vm_compute.
Defined.

(** C4.  Round trip, when no storage operation throws: after [setTheme(x)]
    with [x] 'dark' or 'light', [getStoredPreference] returns [x]; after
    [setTheme(null)] it returns the absent value. *)
Theorem setTheme_getStoredPreference (w : World) :
  storage_reliable (localStorage w) →
  (∀ x, x = "dark" ∨ x = "light" →
     completion (setTheme (JStr x);; getStoredPreference) w = Normal (JStr x)) ∧
  completion (setTheme JNull;; getStoredPreference) w = Normal JNull.
Proof.
  intros (Hget & Hset & Hrem). split.
  - intros x Hx%is_theme_JStr. unfold completion.
    rewrite (bind_normal _ _ _ _ (setTheme_normal _ w)), getStoredPreference_eq.
    simpl. f_equal. rewrite run_setTheme_theme by done.
    unfold read_stored, store_best_effort, stored_entry; simpl.
    rewrite Hset; simpl. rewrite Hget. by rewrite lookup_insert_eq.
  - unfold completion.
    rewrite (bind_normal _ _ _ _ (setTheme_normal _ w)), getStoredPreference_eq.
    simpl. f_equal. unfold run. rewrite setTheme_eq. simpl.
    unfold read_stored, remove_best_effort, stored_entry; simpl.
    rewrite Hrem; simpl. rewrite Hget. by rewrite lookup_delete_eq.
Qed.

Lemma reliable_storage_reliable (m : gmap string string) :
  storage_reliable (reliable_storage m).
Proof. by repeat split. Qed.

Lemma setTheme_getStoredPreference_witness :
  let w := page (reliable_storage {[ THEME_STORAGE_KEY := "light" ]}) false in
  completion (setTheme (JStr "dark");; getStoredPreference) w = Normal (JStr "dark") ∧
  completion (setTheme (JStr "light");; getStoredPreference) w = Normal (JStr "light") ∧
  completion (setTheme JNull;; getStoredPreference) w = Normal JNull.
Proof.
  cbv zeta.
  destruct (setTheme_getStoredPreference
    (page (reliable_storage {[ THEME_STORAGE_KEY := "light" ]}) false)
    (reliable_storage_reliable _)) as [Hx Hnull].
  split; [apply Hx; by left|]. split; [apply Hx; by right | exact Hnull].
Defined.

(** C5.  [initTheme], from any state: a stored preference of 'dark' or
    'light' is applied with [setTheme], after which the attribute and the
    stored entry both hold it; otherwise the attribute is set to the system
    preference and the storage is left as it was. *)
Theorem initTheme_cases (w : World) :
  completion initTheme w = Normal () ∧
  (∀ x, x = "dark" ∨ x = "light" →
     completion getStoredPreference w = Normal (JStr x) →
     initTheme w = setTheme (JStr x) w ∧
     theme_attribute (run initTheme w) = Some x ∧
     stored_entry (run initTheme w) = Some x) ∧
  (completion getStoredPreference w ≠ Normal (JStr "dark") →
   completion getStoredPreference w ≠ Normal (JStr "light") →
     ∃ sys, completion getSystemPreference w = Normal (JStr sys) ∧
       theme_attribute (run initTheme w) = Some sys ∧
       localStorage (run initTheme w) = localStorage w).
Proof.
  split; [apply initTheme_normal|]. split.
  - intros x Hx%is_theme_JStr Hs%stored_is.
    assert (initTheme w = setTheme (JStr x) w) as E
      by by rewrite initTheme_eq, Hs, Hx.
    split; [done|].
    assert (run initTheme w = run (setTheme (JStr x)) w) as ->
      by (unfold run; by rewrite E).
    split; [by apply theme_attribute_setTheme|].
    unfold stored_entry.
    rewrite (localStorage_setTheme_same x w Hx (read_stored_entry w x Hs)).
    by apply read_stored_entry.
  - intros Hd Hl.
    assert (is_theme (read_stored w) = false) as Hu.
    { apply is_theme_false. split; intros H%stored_is; contradiction. }
    exists (system_theme w). split; [by apply system_is|].
    unfold run. rewrite initTheme_unset by done. simpl.
    split; [apply theme_attribute_set_root | done].
Qed.

Lemma initTheme_cases_witness :
  let stored := page (reliable_storage {[ THEME_STORAGE_KEY := "light" ]}) true in
  let unset := page (disabled_storage {[ THEME_STORAGE_KEY := "light" ]}) true in
  (theme_attribute (run initTheme stored) = Some "light" ∧
   stored_entry (run initTheme stored) = Some "light") ∧
  (theme_attribute (run initTheme unset) = Some "dark" ∧
   localStorage (run initTheme unset) = localStorage unset).
Proof.
  cbv zeta. split.
  - destruct (initTheme_cases
      (page (reliable_storage {[ THEME_STORAGE_KEY := "light" ]}) true))
      as (_ & H & _).
    destruct (H "light") as (_ & Ha & Hs); [by right | reflexivity |].
    by split.
  - destruct (initTheme_cases
      (page (disabled_storage {[ THEME_STORAGE_KEY := "light" ]}) true))
      as (_ & _ & H).
    destruct H as (sys & Hsys & Ha & Hs); [discriminate | discriminate |].
    injection Hsys as <-. by split.
Defined.

(** C6.  Storage faults do not escape.  When the read throws,
    [getStoredPreference] returns the absent value.  When the write (or the
    removal) throws inside [setTheme], [setTheme] still completes normally
    with the attribute set (or removed) and the storage as it was.  Every
    function and listener of the script completes normally whatever the
    storage does; the script itself never ends on a storage fault, and
    completes normally wherever the media query can take its listener. *)
Theorem storage_faults_absorbed (w : World) :
  let s := localStorage w in
  (getItem_throws s (items s) THEME_STORAGE_KEY = true →
     getStoredPreference w = (Normal JNull, w)) ∧
  (∀ x, x = "dark" ∨ x = "light" →
     setItem_throws s (items s) THEME_STORAGE_KEY x = true →
     completion (setTheme (JStr x)) w = Normal () ∧
     theme_attribute (run (setTheme (JStr x)) w) = Some x ∧
     localStorage (run (setTheme (JStr x)) w) = s) ∧
  (removeItem_throws s (items s) THEME_STORAGE_KEY = true →
     completion (setTheme JNull) w = Normal () ∧
     theme_attribute (run (setTheme JNull) w) = None ∧
     localStorage (run (setTheme JNull) w) = s) ∧
  (∃ v, completion getStoredPreference w = Normal v) ∧
  (∀ v, completion (setTheme v) w = Normal ()) ∧
  completion initTheme w = Normal () ∧
  completion toggleTheme w = Normal () ∧
  completion updateToggleButton w = Normal () ∧
  (∀ h, completion (runHandler h) w = Normal ()) ∧
  completion script w ≠ Throw StorageFault ∧
  (change_listener_supported w → completion script w = Normal ()).
Proof.
  intros s. subst s. split; [|split; [|split]].
  - intros Hf. rewrite getStoredPreference_eq. unfold read_stored. cbv zeta.
    by rewrite Hf.
  - intros x Hx%is_theme_JStr Hf.
    split; [apply setTheme_normal|]. split; [by apply theme_attribute_setTheme|].
    rewrite run_setTheme_theme by done. unfold store_best_effort; simpl.
    by rewrite Hf.
  - intros Hf. split; [apply setTheme_normal|].
    unfold run. rewrite setTheme_eq. simpl.
    split; [by rewrite theme_attribute_remove, theme_attribute_remove_root|].
    unfold remove_best_effort; simpl. by rewrite Hf.
  - split; [apply getStoredPreference_normal|].
    split; [intros v; apply setTheme_normal|].
    split; [apply initTheme_normal|].
    split; [apply toggleTheme_normal|].
    split; [apply updateToggleButton_normal|].
    split; [intros h; apply runHandler_normal|].
    split; [|apply script_normal].
    rewrite script_completion.
    destruct (matchMedia w) as [mq|]; [|done]. by destruct (has_addEventListener mq).
Qed.

Lemma storage_faults_absorbed_witness :
  let w := page (disabled_storage {[ THEME_STORAGE_KEY := "light" ]}) true in
  getStoredPreference w = (Normal JNull, w) ∧
  (completion (setTheme (JStr "dark")) w = Normal () ∧
   theme_attribute (run (setTheme (JStr "dark")) w) = Some "dark" ∧
   stored_entry (run (setTheme (JStr "dark")) w) = Some "light") ∧
  (completion (setTheme JNull) w = Normal () ∧
   theme_attribute (run (setTheme JNull) w) = None ∧
   stored_entry (run (setTheme JNull) w) = Some "light").
Proof.
  cbv zeta.
  destruct (storage_faults_absorbed
    (page (disabled_storage {[ THEME_STORAGE_KEY := "light" ]}) true))
    as (Hget & Hset & Hrem & _).
  split; [by apply Hget|]. split.
  - destruct (Hset "dark") as (Hc & Ha & Hs); [by left | reflexivity |].
    split; [done|]. split; [done|]. unfold stored_entry. by rewrite Hs.
  - destruct Hrem as (Hc & Ha & Hs); [reflexivity|].
    split; [done|]. split; [done|]. unfold stored_entry. by rewrite Hs.
Defined.

(** ** The toggle control's label *)

Lemma toggle_control_is (w : World) (v : value) :
  toggle_control w = Normal v ↔ element_by_id "theme-toggle" w = v.
Proof.
  unfold toggle_control, completion. rewrite document_getElementById_eq. simpl.
  split; [by intros [= ->] | by intros ->].
Qed.

Lemma current_theme_set_node (r : NodeRef) (name x : string) (w : World) :
  name ≠ THEME_ATTRIBUTE →
  current_theme (set_node_attribute r name x w) = current_theme w.
Proof.
  intros Hne. unfold current_theme, system_theme.
  by rewrite theme_attribute_set_node, matchMedia_set_node.
Qed.

Lemma getAttribute_completion (r : NodeRef) (name : string) (w : World) :
  completion (getAttribute (JElem r) name) w =
    match lookup_node r w with
    | Some e => Normal (from_option JStr JNull (attributes e !! name))
    | None => Throw TypeError
    end.
Proof.
  unfold completion, getAttribute, on_element, ret. by destruct (lookup_node r w).
Qed.

Lemma label_for_cases (v : value) :
  v = JStr "dark" ∨ v = JStr "light" →
  (label_for v = "Switch to light mode" ↔ v = JStr "dark") ∧
  (label_for v = "Switch to dark mode" ↔ v = JStr "light").
Proof. intros [-> | ->]; by vm_compute. Qed.

(** C7.  Where the toggle control exists, after [updateToggleButton] its
    [aria-label] and its [title] read "Switch to light mode" exactly when
    [getCurrentTheme] returns 'dark', and "Switch to dark mode" exactly when
    it returns 'light'; the control is the same element as before. *)
Theorem updateToggleButton_label (w : World) (r : NodeRef) :
  toggle_control w = Normal (JElem r) →
  let w' := run updateToggleButton w in
  toggle_control w' = Normal (JElem r) ∧
  ∀ name, name = "aria-label" ∨ name = "title" →
    (completion (getAttribute (JElem r) name) w' = Normal (JStr "Switch to light mode")
       ↔ completion getCurrentTheme w' = Normal (JStr "dark")) ∧
    (completion (getAttribute (JElem r) name) w' = Normal (JStr "Switch to dark mode")
       ↔ completion getCurrentTheme w' = Normal (JStr "light")).
Proof.
  intros Hr%toggle_control_is w'. subst w'.
  unfold run. rewrite updateToggleButton_eq, Hr. simpl.
  set (lbl := label_for (current_theme w)).
  set (w' := set_node_attribute r "title" lbl (set_node_attribute r "aria-label" lbl w)).
  assert (element_by_id "theme-toggle" w' = JElem r) as Hr'.
  { subst w'. by rewrite !element_by_id_set_attribute. }
  split; [by apply toggle_control_is|].
  assert (current_theme w' = current_theme w) as Hcur.
  { subst w'. by rewrite !current_theme_set_node. }
  destruct (element_by_id_cases "theme-toggle" w) as [? | (r0 & e & Hr0 & He)];
    [congruence|].
  assert (r0 = r) as -> by congruence.
  intros name Hname.
  assert (completion (getAttribute (JElem r) name) w' = Normal (JStr lbl)) as ->.
  { rewrite getAttribute_completion. subst w'.
    rewrite !lookup_set_node_attribute, He. simpl.
    destruct Hname as [-> | ->].
    - by rewrite lookup_insert_ne, lookup_insert_eq.
    - by rewrite lookup_insert_eq. }
  rewrite !current_is, Hcur.
  destruct (label_for_cases _ (current_theme_cases w)) as [H1 H2].
  fold lbl in H1, H2.
  split; (split; [intros [= H] | intros H; f_equal; f_equal]); tauto.
Qed.

Lemma updateToggleButton_label_witness :
  let w := run initTheme (page (reliable_storage ∅) true) in
  let w' := run updateToggleButton w in
  completion getCurrentTheme w' = Normal (JStr "dark") ∧
  completion (getAttribute (JElem (DescRef 1)) "aria-label") w'
    = Normal (JStr "Switch to light mode") ∧
  completion (getAttribute (JElem (DescRef 1)) "title") w'
    = Normal (JStr "Switch to light mode").
Proof.
  cbv zeta.
  destruct (updateToggleButton_label
    (run initTheme (page (reliable_storage ∅) true)) (DescRef 1))
    as [_ H]; [by vm_compute|].
  assert (completion getCurrentTheme
    (run updateToggleButton (run initTheme (page (reliable_storage ∅) true)))
    = Normal (JStr "dark")) as Hdark by by vm_compute.
  split; [exact Hdark|].
  split; [apply (H "aria-label") | apply (H "title")]; auto.
Defined.

(** ** Idempotence *)

Lemma set_root_attribute_twice (name x : string) (w : World) :
  set_root_attribute name x (set_root_attribute name x w) = set_root_attribute name x w.
Proof. unfold set_root_attribute; simpl. by rewrite insert_insert_eq. Qed.

Lemma remove_root_attribute_twice (name : string) (w : World) :
  remove_root_attribute name (remove_root_attribute name w) = remove_root_attribute name w.
Proof. unfold remove_root_attribute; simpl. by rewrite delete_delete_eq. Qed.

Lemma store_best_effort_twice (k x name : string) (w : World) :
  store_best_effort k x
    (set_root_attribute name x (store_best_effort k x (set_root_attribute name x w)))
  = store_best_effort k x (set_root_attribute name x w).
Proof.
  unfold store_best_effort, set_root_attribute; simpl.
  destruct (setItem_throws (localStorage w) (items (localStorage w)) k x) eqn:E1; simpl.
  - by rewrite E1, insert_insert_eq.
  - rewrite !insert_insert_eq.
    by destruct (setItem_throws _ (<[k:=x]> _) _ _).
Qed.

Lemma remove_best_effort_twice (k name : string) (w : World) :
  remove_best_effort k
    (remove_root_attribute name (remove_best_effort k (remove_root_attribute name w)))
  = remove_best_effort k (remove_root_attribute name w).
Proof.
  unfold remove_best_effort, remove_root_attribute; simpl.
  destruct (removeItem_throws (localStorage w) (items (localStorage w)) k) eqn:E1; simpl.
  - by rewrite E1, delete_delete_eq.
  - rewrite !delete_delete_eq.
    by destruct (removeItem_throws _ (delete k _) _).
Qed.

Lemma setTheme_twice (v : value) (w : World) :
  run (setTheme v;; setTheme v) w = run (setTheme v) w.
Proof.
  unfold run at 1. rewrite (bind_normal _ _ _ _ (setTheme_normal v w)).
  unfold run. rewrite !setTheme_eq. simpl.
  destruct (is_theme v).
  - apply store_best_effort_twice.
  - apply remove_best_effort_twice.
Qed.

(** C8.  [setTheme] is idempotent: from any state of the document and the
    storage, calling [setTheme('dark')] twice leaves the same attribute and
    stored entry (indeed the same world) as calling it once; the same for
    'light'. *)
Theorem setTheme_idempotent (w : World) :
  (run (setTheme (JStr "dark");; setTheme (JStr "dark")) w = run (setTheme (JStr "dark")) w ∧
   theme_attribute (run (setTheme (JStr "dark");; setTheme (JStr "dark")) w)
     = theme_attribute (run (setTheme (JStr "dark")) w) ∧
   stored_entry (run (setTheme (JStr "dark");; setTheme (JStr "dark")) w)
     = stored_entry (run (setTheme (JStr "dark")) w)) ∧
  (run (setTheme (JStr "light");; setTheme (JStr "light")) w = run (setTheme (JStr "light")) w ∧
   theme_attribute (run (setTheme (JStr "light");; setTheme (JStr "light")) w)
     = theme_attribute (run (setTheme (JStr "light")) w) ∧
   stored_entry (run (setTheme (JStr "light");; setTheme (JStr "light")) w)
     = stored_entry (run (setTheme (JStr "light")) w)).
Proof. by rewrite !setTheme_twice. Qed.

(** ** The toggle control is found the same way after every operation *)

Section ControlPreserved.
Variable id : string.
Implicit Types (w : World) (v : value).

Lemma element_by_id_store k x w :
  element_by_id id (store_best_effort k x w) = element_by_id id w.
Proof. unfold store_best_effort. cbv zeta. by destruct (setItem_throws _ _ _ _). Qed.

Lemma element_by_id_remove k w :
  element_by_id id (remove_best_effort k w) = element_by_id id w.
Proof. unfold remove_best_effort. cbv zeta. by destruct (removeItem_throws _ _ _). Qed.

Lemma element_by_id_set_root x w :
  element_by_id id (set_root_attribute THEME_ATTRIBUTE x w) = element_by_id id w.
Proof. rewrite set_root_attribute_eq. by apply element_by_id_set_attribute. Qed.

Lemma element_by_id_remove_root w :
  element_by_id id (remove_root_attribute THEME_ATTRIBUTE w) = element_by_id id w.
Proof.
  unfold remove_root_attribute.
  eapply (element_by_id_update _ RootRef); [done|]. simpl.
  by rewrite lookup_delete_ne.
Qed.

Lemma element_by_id_setTheme v w :
  element_by_id id (run (setTheme v) w) = element_by_id id w.
Proof.
  unfold run. rewrite setTheme_eq. simpl. destruct (is_theme v).
  - by rewrite element_by_id_store, element_by_id_set_root.
  - by rewrite element_by_id_remove, element_by_id_remove_root.
Qed.

Lemma element_by_id_initTheme w :
  element_by_id id (run initTheme w) = element_by_id id w.
Proof.
  unfold run. rewrite initTheme_eq. destruct (is_theme _).
  - apply element_by_id_setTheme.
  - apply element_by_id_set_root.
Qed.

Lemma element_by_id_toggleTheme w :
  element_by_id id (run toggleTheme w) = element_by_id id w.
Proof. unfold run. rewrite toggleTheme_eq. apply element_by_id_setTheme. Qed.

Lemma element_by_id_updateToggleButton w :
  element_by_id id (run updateToggleButton w) = element_by_id id w.
Proof.
  unfold run. rewrite updateToggleButton_eq. simpl.
  destruct (element_by_id "theme-toggle" w); [done | done |].
  by rewrite !element_by_id_set_attribute.
Qed.

Lemma element_by_id_attachToggle w :
  element_by_id id (run attachToggle w) = element_by_id id w.
Proof.
  unfold run, attachToggle. unfold bind at 1.
  rewrite document_getElementById_eq.
  destruct (element_by_id_cases "theme-toggle" w) as [-> | (r & e & -> & Hr)]; simpl.
  - unfold bind, ret. apply element_by_id_updateToggleButton.
  - unfold bind, addEventListener, on_element. rewrite Hr.
    etrans; [apply element_by_id_updateToggleButton|].
    by eapply element_by_id_update.
Qed.

Lemma element_by_id_onToggleClick w :
  element_by_id id (run onToggleClick w) = element_by_id id w.
Proof.
  unfold run, onToggleClick.
  rewrite (bind_normal _ _ _ _ (toggleTheme_normal w)).
  etrans; [apply element_by_id_updateToggleButton|].
  apply element_by_id_toggleTheme.
Qed.

Lemma element_by_id_onSystemChange w :
  element_by_id id (run onSystemChange w) = element_by_id id w.
Proof.
  unfold run, onSystemChange. unfold bind at 1.
  rewrite getStoredPreference_eq.
  destruct (truthy _); simpl; [done|].
  unfold bind at 1. rewrite getSystemPreference_eq.
  unfold bind at 1. unfold document_documentElement, ret.
  unfold bind. rewrite setAttribute_eq by by eexists.
  etrans; [apply element_by_id_updateToggleButton|].
  by apply element_by_id_set_attribute.
Qed.

Lemma element_by_id_runHandler h w :
  element_by_id id (run (runHandler h) w) = element_by_id id w.
Proof.
  destruct h; simpl;
    [apply element_by_id_onToggleClick | apply element_by_id_attachToggle
    | apply element_by_id_onSystemChange].
Qed.

Lemma element_by_id_script w :
  element_by_id id (run script w) = element_by_id id w.
Proof.
  unfold run, script.
  rewrite (bind_normal _ _ _ _ (initTheme_normal w)).
  rewrite <- (element_by_id_initTheme w).
  set (w1 := run initTheme w).
  assert (∃ w2, bind document_readyState (λ rs,
            if strict_eq rs (JStr "loading")
            then document_addEventListener "DOMContentLoaded" DomReady
            else attachToggle) w1 = (Normal (), w2) ∧
            element_by_id id w2 = element_by_id id w1) as (w2 & Hw2 & <-).
  { unfold bind at 1, document_readyState.
    destruct (strict_eq _ _).
    - by eexists.
    - exists (run attachToggle w1). split; [|apply element_by_id_attachToggle].
      pose proof (attachToggle_normal w1) as H. unfold completion, run in *.
      destruct (attachToggle w1); simpl in *. by subst. }
  unfold bind at 1. rewrite Hw2.
  unfold bind, window_matchMedia, mediaQuery_addEventListener, ret.
  destruct (matchMedia w2) as [mq|] eqn:E; simpl; [|done].
  rewrite E. by destruct (has_addEventListener mq).
Qed.

End ControlPreserved.

Lemma runHandlers_normal (hs : list Handler) (w : World) :
  completion (runHandlers hs) w = Normal ().
Proof.
  revert w. induction hs as [|h hs IH]; intros w; [done|]. simpl.
  unfold completion. rewrite (bind_normal _ _ _ _ (runHandler_normal h w)).
  apply IH.
Qed.

Lemma element_by_id_runHandlers (id : string) (hs : list Handler) (w : World) :
  element_by_id id (run (runHandlers hs) w) = element_by_id id w.
Proof.
  revert w. induction hs as [|h hs IH]; intros w; [done|]. simpl.
  unfold run. rewrite (bind_normal _ _ _ _ (runHandler_normal h w)).
  etrans; [apply IH|]. apply element_by_id_runHandler.
Qed.

(** C9.  Without a toggle control in the document, [updateToggleButton] and
    the listener-attachment code do nothing and complete normally, and so
    does every function and listener.  After the script, any sequence of
    listener invocations completes normally and still finds no control; the
    script itself followed by such a sequence completes normally wherever
    the media query can take its listener. *)
Theorem no_toggle_control_safe (w : World) :
  toggle_control w = Normal JNull →
  updateToggleButton w = (Normal (), w) ∧
  attachToggle w = (Normal (), w) ∧
  completion initTheme w = Normal () ∧
  completion toggleTheme w = Normal () ∧
  (∀ v, completion (setTheme v) w = Normal ()) ∧
  (∀ h, completion (runHandler h) w = Normal ()) ∧
  (∀ hs, (change_listener_supported w →
            completion (script;; runHandlers hs) w = Normal ()) ∧
         completion (runHandlers hs) (run script w) = Normal () ∧
         toggle_control (run (runHandlers hs) (run script w)) = Normal JNull).
Proof.
  intros Hnone%toggle_control_is.
  assert (updateToggleButton w = (Normal (), w)) as Hupd
    by by rewrite updateToggleButton_eq, Hnone.
  split; [done|]. split.
  { unfold attachToggle. unfold bind at 1.
    rewrite document_getElementById_eq, Hnone. simpl. by unfold bind, ret. }
  split; [apply initTheme_normal|]. split; [apply toggleTheme_normal|].
  split; [intros v; apply setTheme_normal|].
  split; [intros h; apply runHandler_normal|].
  intros hs. split; [|split; [apply runHandlers_normal|]].
  { intros Hsup. unfold completion.
    rewrite (bind_normal _ _ _ _ (script_normal w Hsup)). apply runHandlers_normal. }
  apply toggle_control_is.
  etrans; [apply element_by_id_runHandlers|].
  etrans; [apply element_by_id_script | done].
Qed.

Lemma no_toggle_control_safe_witness :
  let w := bare_page (disabled_storage ∅) in
  updateToggleButton w = (Normal (), w) ∧
  completion (script;; runHandlers [DomReady; SystemChange; ClickToggle]) w = Normal ().
Proof.
  cbv zeta.
  destruct (no_toggle_control_safe (bare_page (disabled_storage ∅)))
    as (Hupd & _ & _ & _ & _ & _ & Hseq); [reflexivity|].
  split; [exact Hupd|].
  destruct (Hseq [DomReady; SystemChange; ClickToggle]) as [Hnormal _].
  apply Hnormal. by intros mq.
Defined.

(** C10.  With a stored entry that is non-empty and neither 'dark' nor
    'light', the media query's 'change' listener does nothing: after the
    system preference changes, the [data-theme] attribute and every
    attribute of the toggle control are what they were.  [initTheme] and
    [toggleTheme] in the same state take the entry for no preference:
    [initTheme] sets the attribute to the system preference and writes
    nothing, [toggleTheme] sets the opposite of the system preference. *)
Theorem corrupted_entry_blocks_system_change (w : World) (x : string) (dark : bool) :
  x ≠ "" → x ≠ "dark" → x ≠ "light" →
  completion getStoredPreference w = Normal (JStr x) →
  let w1 := set_matches dark w in
  let w' := run onSystemChange w1 in
  (onSystemChange w1 = (Normal (), w1) ∧
   theme_attribute w' = theme_attribute w ∧
   toggle_control w' = toggle_control w ∧
   ∀ button name, completion (getAttribute button name) w'
                  = completion (getAttribute button name) w) ∧
  (∃ sys, completion getSystemPreference w1 = Normal (JStr sys) ∧
     theme_attribute (run initTheme w1) = Some sys ∧
     localStorage (run initTheme w1) = localStorage w1 ∧
     toggleTheme w1 =
       setTheme (if strict_eq (JStr sys) (JStr "dark") then JStr "light" else JStr "dark") w1).
Proof.
  intros Hne Hd Hl Hs%stored_is w1 w'. subst w1 w'.
  assert (read_stored (set_matches dark w) = JStr x) as Hs1 by done.
  assert (onSystemChange (set_matches dark w) = (Normal (), set_matches dark w)) as E.
  { unfold onSystemChange. unfold bind at 1. rewrite getStoredPreference_eq, Hs1.
    simpl. by rewrite bool_decide_eq_false_2. }
  split.
  - split; [done|]. unfold run. rewrite E. simpl.
    split; [reflexivity|]. split.
    { unfold toggle_control, completion. by rewrite !document_getElementById_eq. }
    intros [| |r] name; try reflexivity.
    rewrite !getAttribute_completion. by destruct r.
  - assert (is_theme (read_stored (set_matches dark w)) = false) as Hu.
    { rewrite Hs1. apply is_theme_false. split; congruence. }
    exists (system_theme (set_matches dark w)). split; [by apply system_is|].
    unfold run. rewrite initTheme_unset by done. simpl.
    split; [apply theme_attribute_set_root|]. split; [done|].
    rewrite toggleTheme_unset by done. unfold opposite, strict_eq.
    by destruct (system_theme_cases (set_matches dark w)) as [-> | ->].
Qed.

Lemma corrupted_entry_blocks_system_change_witness :
  let w := run (script;; runHandlers [DomReady])
               (page (reliable_storage {[ THEME_STORAGE_KEY := "blue" ]}) true) in
  let w1 := set_matches false w in
  theme_attribute (run onSystemChange w1) = Some "dark" ∧
  completion (getAttribute (JElem (DescRef 1)) "aria-label") (run onSystemChange w1)
    = Normal (JStr "Switch to light mode") ∧
  theme_attribute (run initTheme w1) = Some "light" ∧
  stored_entry (run toggleTheme w1) = Some "dark".
Proof.
  cbv zeta.
  destruct (corrupted_entry_blocks_system_change
    (run (script;; runHandlers [DomReady])
         (page (reliable_storage {[ THEME_STORAGE_KEY := "blue" ]}) true))
    "blue" false) as ((_ & Hattr & _ & Hlabel) & (sys & Hsys & Hinit & _ & Htog));
    [discriminate | discriminate | discriminate | by vm_compute |].
  rewrite Hattr, Hlabel.
  assert (sys = "light") as -> by (by injection Hsys as <-).
  split; [by vm_compute|]. split; [by vm_compute|].
  split; [exact Hinit|].
  unfold run at 1. rewrite Htog. by vm_compute.
Defined.

(** * Beyond the single operations: what each listener and the script do *)

Section Runs.
Implicit Types (w : World) (v : value) (r : NodeRef).

Lemma run_bind {A B} (m : M A) (k : A → M B) w a :
  completion m w = Normal a → run (bind m k) w = run (k a) (run m w).
Proof. intros H. unfold run at 1 2. by rewrite (bind_normal _ _ _ _ H). Qed.

Lemma completion_bind {A B} (m : M A) (k : A → M B) w a :
  completion m w = Normal a → completion (bind m k) w = completion (k a) (run m w).
Proof. intros H. unfold completion. by rewrite (bind_normal _ _ _ _ H). Qed.

Lemma run_toggleTheme w :
  run toggleTheme w = run (setTheme (JStr (next_theme w))) w.
Proof. unfold run. by rewrite toggleTheme_eq. Qed.

Lemma next_theme_cases w : next_theme w = "dark" ∨ next_theme w = "light".
Proof.
  unfold next_theme, opposite.
  destruct (strict_eq _ _); [by right|].
  destruct (strict_eq _ _); [by left|].
  destruct (bool_decide _); auto.
Qed.

Lemma next_theme_is_theme w : is_theme (JStr (next_theme w)) = true.
Proof. apply is_theme_JStr. destruct (next_theme_cases w); auto. Qed.

Lemma run_onToggleClick w :
  run onToggleClick w = run updateToggleButton (run toggleTheme w).
Proof. exact (run_bind _ (λ _, updateToggleButton) w () (toggleTheme_normal w)). Qed.

Lemma run_onSystemChange w :
  run onSystemChange w =
    if truthy (read_stored w) then w
    else run updateToggleButton (set_root_attribute THEME_ATTRIBUTE (system_theme w) w).
Proof.
  unfold run, onSystemChange. unfold bind at 1.
  rewrite getStoredPreference_eq.
  destruct (truthy _); simpl; [done|].
  unfold bind at 1. rewrite getSystemPreference_eq.
  unfold bind at 1. unfold document_documentElement, ret.
  unfold bind. by rewrite setAttribute_eq by by eexists.
Qed.

Lemma run_attachToggle w :
  run attachToggle w =
    run updateToggleButton
      (match element_by_id "theme-toggle" w with
       | JElem r => add_node_listener r "click" ClickToggle w
       | _ => w
       end).
Proof.
  unfold run, attachToggle. unfold bind at 1.
  rewrite document_getElementById_eq.
  destruct (element_by_id_cases "theme-toggle" w) as [-> | (r & e & -> & Hr)]; simpl.
  - by unfold bind, ret.
  - unfold bind, addEventListener, on_element, add_node_listener. by rewrite Hr.
Qed.

Lemma run_initTheme w :
  run initTheme w =
    if is_theme (read_stored w) then run (setTheme (read_stored w)) w
    else set_root_attribute THEME_ATTRIBUTE (system_theme w) w.
Proof. unfold run. rewrite initTheme_eq. by destruct (is_theme _). Qed.

Lemma normal_run {A} (m : M A) w a :
  completion m w = Normal a → m w = (Normal a, run m w).
Proof. unfold completion, run. destruct (m w); simpl. by intros ->. Qed.

Lemma run_script w :
  run script w =
    install_change_listener
      (if bool_decide (readyState (run initTheme w) = "loading")
       then install_ready_listener (run initTheme w)
       else run attachToggle (run initTheme w)).
Proof.
  unfold script. rewrite (run_bind _ _ _ _ (initTheme_normal w)).
  set (w1 := run initTheme w).
  set (w2 := if bool_decide _ then _ else _).
  assert (bind document_readyState (λ rs,
            if strict_eq rs (JStr "loading")
            then document_addEventListener "DOMContentLoaded" DomReady
            else attachToggle) w1 = (Normal (), w2)) as Hw2.
  { subst w2. unfold bind, document_readyState, strict_eq.
    destruct (decide (readyState w1 = "loading")) as [E | E].
    - rewrite !bool_decide_eq_true_2; [done | done | by rewrite E].
    - rewrite !bool_decide_eq_false_2; [| done | congruence].
      apply normal_run, attachToggle_normal. }
  unfold run. unfold bind at 1. rewrite Hw2.
  unfold bind, window_matchMedia, mediaQuery_addEventListener, ret,
    install_change_listener.
  destruct (matchMedia w2) as [mq|] eqn:E; simpl; [|done].
  rewrite E. by destruct (has_addEventListener mq).
Qed.

End Runs.

(** * What the listeners leave alone *)

Section ThemeState.
Implicit Types (w : World) (v : value) (r : NodeRef).

Lemma theme_state_eq w w' :
  theme_state w' = theme_state w ↔
  localStorage w' = localStorage w ∧ theme_attribute w' = theme_attribute w ∧
  matchMedia w' = matchMedia w.
Proof. unfold theme_state. split; [by intros [= -> -> ->] | by intros (-> & -> & ->)]. Qed.

Lemma read_stored_theme_state w w' :
  theme_state w' = theme_state w → read_stored w' = read_stored w.
Proof.
  intros (Hs & _ & _)%theme_state_eq. unfold read_stored, stored_entry. by rewrite Hs.
Qed.

Lemma system_theme_theme_state w w' :
  theme_state w' = theme_state w → system_theme w' = system_theme w.
Proof. intros (_ & _ & Hm)%theme_state_eq. unfold system_theme. by rewrite Hm. Qed.

Lemma current_theme_theme_state w w' :
  theme_state w' = theme_state w → current_theme w' = current_theme w.
Proof.
  intros (_ & Ha & Hm)%theme_state_eq. unfold current_theme, system_theme.
  by rewrite Ha, Hm.
Qed.

Lemma theme_state_set_node r name x w :
  name ≠ THEME_ATTRIBUTE →
  theme_state (set_node_attribute r name x w) = theme_state w.
Proof.
  intros Hne. apply theme_state_eq.
  by rewrite localStorage_set_node, theme_attribute_set_node, matchMedia_set_node.
Qed.

Lemma theme_state_updateToggleButton w :
  theme_state (run updateToggleButton w) = theme_state w.
Proof.
  unfold run. rewrite updateToggleButton_eq. simpl.
  destruct (element_by_id "theme-toggle" w); [done | done |].
  by rewrite !theme_state_set_node.
Qed.

Lemma theme_state_add_node_listener r type h w :
  theme_state (add_node_listener r type h w) = theme_state w.
Proof.
  unfold add_node_listener.
  destruct (lookup_node r w) as [e|] eqn:E; [|done].
  destruct r; simpl in *; [|done]. by injection E as <-.
Qed.

Lemma theme_state_attachToggle w :
  theme_state (run attachToggle w) = theme_state w.
Proof.
  rewrite run_attachToggle, theme_state_updateToggleButton.
  destruct (element_by_id "theme-toggle" w); [done | done |].
  apply theme_state_add_node_listener.
Qed.

Lemma theme_state_set_root x w :
  theme_state (set_root_attribute THEME_ATTRIBUTE x w) = (localStorage w, Some x, matchMedia w).
Proof. unfold theme_state. by rewrite theme_attribute_set_root. Qed.

Lemma theme_state_store k x w :
  theme_state (store_best_effort k x w) =
    (localStorage (store_best_effort k x w), theme_attribute w, matchMedia w).
Proof. unfold store_best_effort. cbv zeta. by destruct (setItem_throws _ _ _ _). Qed.

Lemma theme_state_setTheme x w :
  is_theme (JStr x) = true →
  theme_state (run (setTheme (JStr x)) w) =
    (localStorage (store_best_effort THEME_STORAGE_KEY x w), Some x, matchMedia w).
Proof.
  intros Hx. rewrite run_setTheme_theme by done.
  rewrite theme_state_store, theme_attribute_set_root.
  unfold store_best_effort, set_root_attribute; simpl.
  by destruct (setItem_throws _ _ _ _).
Qed.

Lemma theme_state_toggleTheme w :
  theme_state (run toggleTheme w) =
    (localStorage (store_best_effort THEME_STORAGE_KEY (next_theme w) w),
     Some (next_theme w), matchMedia w).
Proof. rewrite run_toggleTheme. apply theme_state_setTheme, next_theme_is_theme. Qed.

Lemma theme_state_onToggleClick w :
  theme_state (run onToggleClick w) = theme_state (run toggleTheme w).
Proof. rewrite run_onToggleClick. apply theme_state_updateToggleButton. Qed.

Lemma theme_state_onSystemChange w :
  theme_state (run onSystemChange w) =
    if truthy (read_stored w) then theme_state w
    else (localStorage w, Some (system_theme w), matchMedia w).
Proof.
  rewrite run_onSystemChange. destruct (truthy _); [done|].
  by rewrite theme_state_updateToggleButton, theme_state_set_root.
Qed.

Lemma is_theme_to_string v : is_theme v = true → v = JStr (to_string v).
Proof. intros [-> | ->]%is_theme_true; done. Qed.

Lemma theme_state_initTheme w :
  theme_state (run initTheme w) =
    (localStorage w, Some (preferred_theme w), matchMedia w).
Proof.
  rewrite run_initTheme. unfold preferred_theme.
  destruct (is_theme (read_stored w)) eqn:E; [|apply theme_state_set_root].
  pose proof (is_theme_to_string _ E) as Hv.
  set (x := to_string (read_stored w)) in *. rewrite Hv in E |- *.
  rewrite theme_state_setTheme by done. do 2 f_equal.
  unfold store_best_effort. cbv zeta.
  destruct (setItem_throws _ _ _ _); [done|]. simpl.
  rewrite insert_id by by apply read_stored_entry. by destruct (localStorage w).
Qed.

Lemma theme_state_install_ready_listener w :
  theme_state (install_ready_listener w) = theme_state w.
Proof. done. Qed.

Lemma theme_state_script w :
  localStorage (run script w) = localStorage w ∧
  theme_attribute (run script w) = Some (preferred_theme w) ∧
  matchMedia (run script w) =
    (λ mq, if has_addEventListener mq
           then mkMediaQueryList (matches mq)
                                 (mq_listeners mq ++ [("change", SystemChange)])
                                 (has_addEventListener mq)
           else mq)
      <$> matchMedia w.
Proof.
  rewrite run_script.
  set (w2 := if bool_decide _ then _ else _).
  assert (theme_state w2 = (localStorage w, Some (preferred_theme w), matchMedia w))
    as [= Hs Ha Hm].
  { subst w2. destruct (bool_decide _).
    - by rewrite theme_state_install_ready_listener, theme_state_initTheme.
    - by rewrite theme_state_attachToggle, theme_state_initTheme. }
  clearbody w2. unfold install_change_listener. rewrite <- Hs, <- Hm, <- Ha.
  destruct (matchMedia w2) as [mq|] eqn:E; [destruct (has_addEventListener mq) eqn:F|];
    (split; [|split]); simpl; by rewrite ?E, ?F.
Qed.

End ThemeState.

(** * Sequences of events

    The properties below speak of [run (fireAll evs) (run script w)]: the
    events are dispatched from the world the script leaves, which is also
    the world it leaves where it ends on an uncaught exception (the host
    reports the exception and the page lives on with the listeners
    registered so far). *)

Section Events.
Implicit Types (w : World) (h : Handler) (ev : Event) (P : World → Prop).

Lemma run_runHandlers_cons h hs w :
  run (runHandlers (h :: hs)) w = run (runHandlers hs) (run (runHandler h) w).
Proof. exact (run_bind _ (λ _, runHandlers hs) w () (runHandler_normal h w)). Qed.

Lemma runHandlers_invariant P :
  (∀ h w, P w → P (run (runHandler h) w)) →
  ∀ hs w, P w → P (run (runHandlers hs) w).
Proof.
  intros Hh hs. induction hs as [|h hs IH]; intros w Hw; [done|].
  rewrite run_runHandlers_cons. by apply IH, Hh.
Qed.

Lemma dispatch_normal type ls w : completion (dispatch type ls) w = Normal ().
Proof. apply runHandlers_normal. Qed.

Lemma fire_normal ev w : completion (fire ev) w = Normal ().
Proof.
  destruct ev as [r | | dark]; unfold completion, fire.
  - destruct (lookup_node r w); [apply dispatch_normal | done].
  - apply dispatch_normal.
  - destruct (matchMedia w); [apply dispatch_normal | done].
Qed.

Lemma run_fireAll_cons ev evs w :
  run (fireAll (ev :: evs)) w = run (fireAll evs) (run (fire ev) w).
Proof. exact (run_bind _ (λ _, fireAll evs) w () (fire_normal ev w)). Qed.

Lemma fireAll_normal evs w : completion (fireAll evs) w = Normal ().
Proof.
  revert w. induction evs as [|ev evs IH]; intros w; [done|].
  etrans; [|apply (IH (run (fire ev) w))].
  exact (completion_bind _ (λ _, fireAll evs) w () (fire_normal ev w)).
Qed.

Lemma run_fireAll_app evs1 evs2 w :
  run (fireAll (evs1 ++ evs2)) w = run (fireAll evs2) (run (fireAll evs1) w).
Proof.
  revert w. induction evs1 as [|ev evs1 IH]; intros w; [done|].
  rewrite <- app_comm_cons, !run_fireAll_cons. apply IH.
Qed.

Lemma run_script_fireAll evs w :
  change_listener_supported w →
  run (script;; fireAll evs) w = run (fireAll evs) (run script w).
Proof. intros Hsup. exact (run_bind _ (λ _, fireAll evs) w () (script_normal w Hsup)). Qed.

Lemma fire_invariant P :
  (∀ h w, P w → P (run (runHandler h) w)) →
  (∀ dark w, P w → P (set_matches dark w)) →
  (∀ s w, P w → P (set_readyState s w)) →
  ∀ ev w, P w → P (run (fire ev) w).
Proof.
  intros Hh Hm Hr ev w Hw. destruct ev as [r | | dark]; unfold run, fire.
  - destruct (lookup_node r w); [|done].
    by apply (runHandlers_invariant P Hh).
  - apply (runHandlers_invariant P Hh), Hr, Hw.
  - destruct (matchMedia w); [|done].
    apply (runHandlers_invariant P Hh), Hm, Hw.
Qed.

Lemma fireAll_invariant P :
  (∀ ev w, P w → P (run (fire ev) w)) →
  ∀ evs w, P w → P (run (fireAll evs) w).
Proof.
  intros Hf evs. induction evs as [|ev evs IH]; intros w Hw; [done|].
  rewrite run_fireAll_cons. by apply IH, Hf.
Qed.

End Events.

(** X1.  Where the media query has [addEventListener], or the host has no
    [matchMedia] at all, the script followed by any sequence of clicks,
    DOMContentLoaded events and system preference changes completes
    normally, whatever the storage does and whether or not the control
    exists.  On a host whose media query lacks the method, the script ends
    on a TypeError at the registration of the 'change' listener, which only
    [window.matchMedia] guards.  In both cases the events that follow the
    script complete normally. *)
Theorem script_and_events_complete (w : World) (evs : list Event) :
  (change_listener_supported w → completion (script;; fireAll evs) w = Normal ()) ∧
  (∀ mq, matchMedia w = Some mq → has_addEventListener mq = false →
     completion script w = Throw TypeError) ∧
  completion (fireAll evs) (run script w) = Normal ().
Proof.
  split; [|split; [|apply fireAll_normal]].
  - intros Hsup. etrans; [|apply (fireAll_normal evs (run script w))].
    exact (completion_bind _ (λ _, fireAll evs) w () (script_normal w Hsup)).
  - intros mq Hmq Hno. by rewrite script_completion, Hmq, Hno.
Qed.

Lemma script_and_events_complete_witness :
  let evs := [DOMContentLoaded; Click (DescRef 1); SystemPreferenceChanged false] in
  completion (script;; fireAll evs) (page (disabled_storage ∅) true) = Normal () ∧
  completion script (legacy_page (disabled_storage ∅) true) = Throw TypeError ∧
  completion (fireAll evs) (run script (legacy_page (disabled_storage ∅) true)) = Normal ().
Proof.
  cbv zeta.
  destruct (script_and_events_complete (page (disabled_storage ∅) true)
              [DOMContentLoaded; Click (DescRef 1); SystemPreferenceChanged false])
    as (Hok & _ & _).
  destruct (script_and_events_complete (legacy_page (disabled_storage ∅) true)
              [DOMContentLoaded; Click (DescRef 1); SystemPreferenceChanged false])
    as (_ & Hthrow & Hafter).
  split; [apply Hok; by intros mq [= <-]|].
  split; [by eapply Hthrow | exact Hafter].
Defined.

(** ** The attribute always holds a theme *)

Lemma valid_attribute_theme (x : string) (w : World) :
  theme_attribute w = Some x → x = "dark" ∨ x = "light" → valid_attribute w.
Proof. intros Ha [-> | ->]; [by left | by right]. Qed.

Lemma preferred_theme_cases (w : World) :
  preferred_theme w = "dark" ∨ preferred_theme w = "light".
Proof.
  unfold preferred_theme. destruct (is_theme _) eqn:E.
  - apply is_theme_true in E as [-> | ->]; auto.
  - apply system_theme_cases.
Qed.

Lemma valid_attribute_theme_state (w w' : World) :
  theme_state w' = theme_state w → valid_attribute w → valid_attribute w'.
Proof. intros (_ & Ha & _)%theme_state_eq. unfold valid_attribute. by rewrite Ha. Qed.

Lemma valid_attribute_runHandler (h : Handler) (w : World) :
  valid_attribute w → valid_attribute (run (runHandler h) w).
Proof.
  intros Hw. destruct h; simpl.
  - pose proof (theme_state_onToggleClick w) as H.
    rewrite theme_state_toggleTheme in H. injection H as _ Ha _.
    eapply valid_attribute_theme; [exact Ha | apply next_theme_cases].
  - eapply valid_attribute_theme_state; [apply theme_state_attachToggle | done].
  - pose proof (theme_state_onSystemChange w) as H.
    destruct (truthy _).
    + by eapply valid_attribute_theme_state.
    + injection H as _ Ha _.
      eapply valid_attribute_theme; [exact Ha | apply system_theme_cases].
Qed.

Lemma valid_attribute_fire (ev : Event) (w : World) :
  valid_attribute w → valid_attribute (run (fire ev) w).
Proof. by apply fire_invariant; [apply valid_attribute_runHandler | |]. Qed.

Lemma valid_attribute_script (w : World) : valid_attribute (run script w).
Proof.
  destruct (theme_state_script w) as (_ & Ha & _).
  eapply valid_attribute_theme; [exact Ha | apply preferred_theme_cases].
Qed.

Lemma current_theme_valid (w : World) (x : string) :
  theme_attribute w = Some x → x = "dark" ∨ x = "light" → current_theme w = JStr x.
Proof. intros Ha Hx. unfold current_theme. rewrite Ha. by destruct Hx as [-> | ->]. Qed.

(** X2.  Once the script has run, and after any sequence of events, the
    [data-theme] attribute is 'dark' or 'light', and [getCurrentTheme]
    returns the attribute: it no longer depends on the system preference. *)
Theorem attribute_always_theme (w : World) (evs : list Event) :
  let w' := run (fireAll evs) (run script w) in
  ∃ x, (x = "dark" ∨ x = "light") ∧
       theme_attribute w' = Some x ∧
       completion getCurrentTheme w' = Normal (JStr x).
Proof.
  intros w'. subst w'.
  pose proof (fireAll_invariant valid_attribute valid_attribute_fire evs _
                (valid_attribute_script w)) as [H | H];
    [exists "dark" | exists "light"]; (split; [auto|]); (split; [done|]);
    apply current_is, current_theme_valid; auto.
Qed.

(** ** What happens to the storage *)

Lemma storage_evolves_refl (s : Storage) : storage_evolves s s.
Proof. unfold storage_evolves. by split_and!; [.. | left]. Qed.

Lemma storage_evolves_trans (s1 s2 s3 : Storage) :
  storage_evolves s1 s2 → storage_evolves s2 s3 → storage_evolves s1 s3.
Proof.
  intros (Hg1 & Hs1 & Hr1 & Hk1 & He1) (Hg2 & Hs2 & Hr2 & Hk2 & He2).
  split; [congruence|]. split; [congruence|]. split; [congruence|]. split.
  - intros k Hk. by rewrite Hk2, Hk1.
  - destruct He2 as [-> | He2]; [done | by right].
Qed.

Lemma storage_evolves_store (x : string) (w : World) :
  x = "dark" ∨ x = "light" →
  storage_evolves (localStorage w)
                  (localStorage (store_best_effort THEME_STORAGE_KEY x w)).
Proof.
  intros Hx. unfold store_best_effort. cbv zeta.
  destruct (setItem_throws _ _ _ _); [apply storage_evolves_refl|].
  unfold storage_evolves. split_and!; simpl; [done | done | done | |].
  - intros k Hk. by rewrite lookup_insert_ne.
  - right. rewrite lookup_insert_eq. destruct Hx as [-> | ->]; auto.
Qed.

Lemma storage_evolves_runHandler (h : Handler) (w : World) :
  storage_evolves (localStorage w) (localStorage (run (runHandler h) w)).
Proof.
  destruct h; simpl.
  - pose proof (theme_state_onToggleClick w) as H.
    rewrite theme_state_toggleTheme in H. injection H as -> _ _.
    apply storage_evolves_store, next_theme_cases.
  - pose proof (theme_state_attachToggle w) as [= -> _ _].
    apply storage_evolves_refl.
  - pose proof (theme_state_onSystemChange w) as H.
    destruct (truthy _); injection H as -> _ _; apply storage_evolves_refl.
Qed.

Lemma storage_evolves_fire (s : Storage) (ev : Event) (w : World) :
  storage_evolves s (localStorage w) →
  storage_evolves s (localStorage (run (fire ev) w)).
Proof.
  apply (fire_invariant (λ w, storage_evolves s (localStorage w))); [|done|done].
  intros h w' Hw'. eapply storage_evolves_trans; [exact Hw'|].
  apply storage_evolves_runHandler.
Qed.

Lemma storage_evolves_script_events (w : World) (evs : list Event) :
  storage_evolves (localStorage w) (localStorage (run (fireAll evs) (run script w))).
Proof.
  apply (fireAll_invariant (λ w', storage_evolves (localStorage w) (localStorage w'))).
  - intros ev w'. apply storage_evolves_fire.
  - destruct (theme_state_script w) as (-> & _). apply storage_evolves_refl.
Qed.

(** X3.  The script and its listeners touch one key of the storage only:
    after the script and any sequence of events, every key other than
    'theme-preference' holds what it held before. *)
Theorem other_keys_untouched (w : World) (evs : list Event) (k : string) :
  k ≠ THEME_STORAGE_KEY →
  items (localStorage (run (fireAll evs) (run script w))) !! k = items (localStorage w) !! k.
Proof.
  intros Hk. destruct (storage_evolves_script_events w evs) as (_ & _ & _ & H & _).
  by apply H.
Qed.

Lemma other_keys_untouched_witness :
  let w := page (reliable_storage {[ "language" := "fr" ]}) true in
  items (localStorage (run (fireAll [DOMContentLoaded; Click (DescRef 1)]) (run script w)))
    !! "language" = Some "fr".
Proof.
  cbv zeta.
  rewrite (other_keys_untouched
             (page (reliable_storage {[ "language" := "fr" ]}) true)
             [DOMContentLoaded; Click (DescRef 1)] "language"); [reflexivity|].
  discriminate.
Defined.

(** X4.  The script only ever writes 'dark' or 'light' under its key and
    never removes the entry: after the script and any sequence of events the
    stored entry is what it was before, or 'dark', or 'light'; an entry that
    was present is still present. *)
Theorem stored_entry_only_themes (w : World) (evs : list Event) :
  let w' := run (fireAll evs) (run script w) in
  (stored_entry w' = stored_entry w ∨
   stored_entry w' = Some "dark" ∨ stored_entry w' = Some "light") ∧
  (is_Some (stored_entry w) → is_Some (stored_entry w')).
Proof.
  intros w'. subst w'.
  destruct (storage_evolves_script_events w evs) as (_ & _ & _ & _ & H).
  fold (stored_entry (run (fireAll evs) (run script w))) in H. fold (stored_entry w) in H.
  split; [done|]. intros Hsome.
  destruct H as [-> | [-> | ->]]; [done | by eexists | by eexists].
Qed.

(** X5.  Loading the page changes nothing in the storage, whatever is
    stored and however the storage faults: [initTheme] at most writes back
    the value it has just read.  Neither do the DOMContentLoaded listener
    and the system-preference listener; only a click writes. *)
Theorem page_load_keeps_storage (w : World) :
  localStorage (run initTheme w) = localStorage w ∧
  localStorage (run script w) = localStorage w ∧
  localStorage (run attachToggle w) = localStorage w ∧
  localStorage (run onSystemChange w) = localStorage w.
Proof.
  split; [by pose proof (theme_state_initTheme w) as [= -> _ _]|].
  split; [by destruct (theme_state_script w) as (-> & _)|].
  split; [by pose proof (theme_state_attachToggle w) as [= -> _ _]|].
  pose proof (theme_state_onSystemChange w) as H.
  by destruct (truthy _); injection H as -> _ _.
Qed.

(** ** The attribute follows the stored preference, else the system's *)

Section InSync.
Implicit Types (w : World) (h : Handler) (ev : Event).

Lemma in_sync_view w : in_sync w ↔ theme_attribute w = Some (preferred_theme w).
Proof.
  unfold in_sync, preferred_theme. split.
  - by intros (stored & sys & <-%stored_is & <-%system_is & Ha).
  - intros Ha. exists (read_stored w), (system_theme w).
    split; [by apply stored_is|]. split; [by apply system_is | done].
Qed.

Lemma preferred_theme_theme_state w w' :
  theme_state w' = theme_state w → preferred_theme w' = preferred_theme w.
Proof.
  intros H. unfold preferred_theme.
  by rewrite (read_stored_theme_state _ _ H), (system_theme_theme_state _ _ H).
Qed.

Lemma in_sync_theme_state w w' :
  theme_state w' = theme_state w → in_sync w → in_sync w'.
Proof.
  intros H. rewrite !in_sync_view, (preferred_theme_theme_state _ _ H).
  apply theme_state_eq in H as (_ & -> & _). done.
Qed.

Lemma in_sync_stored_theme_shown w : in_sync w → stored_theme_shown w.
Proof.
  rewrite in_sync_view. unfold stored_theme_shown, preferred_theme.
  intros Ha E. by rewrite E in Ha.
Qed.

Lemma storage_reliable_evolves (s s' : Storage) :
  storage_evolves s s' → storage_reliable s → storage_reliable s'.
Proof.
  intros (Hg & Hs & Hr & _) (Hg' & Hs' & Hr'). unfold storage_reliable.
  by rewrite Hg, Hs, Hr.
Qed.

Lemma well_formed_entry_evolves w w' :
  storage_evolves (localStorage w) (localStorage w') →
  well_formed_entry w → well_formed_entry w'.
Proof.
  intros (_ & _ & _ & _ & He) Hw. unfold well_formed_entry, stored_entry in *.
  destruct He as [-> | He]; [done | by right].
Qed.

Lemma read_stored_reliable w :
  storage_reliable (localStorage w) →
  read_stored w = from_option JStr JNull (stored_entry w).
Proof. intros (Hg & _). unfold read_stored. cbv zeta. by rewrite Hg. Qed.

Lemma truthy_read_stored w :
  storage_reliable (localStorage w) → well_formed_entry w →
  truthy (read_stored w) = is_theme (read_stored w).
Proof.
  intros Hrel Hwf. rewrite read_stored_reliable by done.
  by destruct Hwf as [-> | [-> | ->]].
Qed.

Lemma is_theme_truthy (v : value) : is_theme v = true → truthy v = true.
Proof. by intros [-> | ->]%is_theme_true. Qed.

Lemma read_stored_after_store x w w' :
  storage_reliable (localStorage w) →
  localStorage w' = localStorage (store_best_effort THEME_STORAGE_KEY x w) →
  read_stored w' = JStr x.
Proof.
  intros (Hg & Hs & _) Hw'. unfold read_stored, stored_entry. rewrite Hw'.
  unfold store_best_effort. cbv zeta. rewrite Hs; simpl.
  by rewrite Hg, lookup_insert_eq.
Qed.

(** A click brings the attribute and the stored preference together,
    whatever they were, when the storage works. *)
Lemma in_sync_onToggleClick w :
  storage_reliable (localStorage w) → in_sync (run onToggleClick w).
Proof.
  intros Hrel. apply in_sync_view.
  pose proof (theme_state_onToggleClick w) as H.
  rewrite theme_state_toggleTheme in H. injection H as Hs Ha _.
  unfold preferred_theme.
  rewrite (read_stored_after_store _ _ _ Hrel Hs), next_theme_is_theme. exact Ha.
Qed.

Lemma in_sync_onSystemChange w :
  storage_reliable (localStorage w) → well_formed_entry w →
  stored_theme_shown w → in_sync (run onSystemChange w).
Proof.
  intros Hrel Hwf Hshown. apply in_sync_view.
  pose proof (theme_state_onSystemChange w) as H.
  pose proof (truthy_read_stored w Hrel Hwf) as Ht.
  unfold preferred_theme.
  destruct (truthy (read_stored w)).
  - rewrite (read_stored_theme_state _ _ H), <- Ht.
    apply theme_state_eq in H as (_ & -> & _). by apply Hshown.
  - injection H as Hs Ha Hm.
    assert (read_stored (run onSystemChange w) = read_stored w) as ->
      by (unfold read_stored, stored_entry; by rewrite Hs).
    rewrite <- Ht. unfold system_theme. by rewrite Hm.
Qed.

Lemma storage_in_order_runHandler h w :
  storage_in_order w → storage_in_order (run (runHandler h) w).
Proof.
  intros [Hrel Hwf]. pose proof (storage_evolves_runHandler h w) as He. split.
  - by eapply storage_reliable_evolves.
  - by eapply well_formed_entry_evolves.
Qed.

Lemma stored_theme_shown_runHandler h w :
  storage_in_order w → stored_theme_shown w → stored_theme_shown (run (runHandler h) w).
Proof.
  intros [Hrel Hwf] Hshown. destruct h.
  - by apply in_sync_stored_theme_shown, in_sync_onToggleClick.
  - pose proof (theme_state_attachToggle w) as H. unfold stored_theme_shown.
    change (runHandler DomReady) with attachToggle.
    rewrite (read_stored_theme_state _ _ H).
    apply theme_state_eq in H as (_ & -> & _). done.
  - by apply in_sync_stored_theme_shown, in_sync_onSystemChange.
Qed.

Lemma in_sync_runHandler h w :
  storage_in_order w → in_sync w → in_sync (run (runHandler h) w).
Proof.
  intros [Hrel Hwf] Hsync. destruct h.
  - by apply in_sync_onToggleClick.
  - eapply in_sync_theme_state; [apply theme_state_attachToggle | done].
  - by apply in_sync_onSystemChange, in_sync_stored_theme_shown.
Qed.

Lemma matchMedia_runHandler h w :
  matchMedia (run (runHandler h) w) = matchMedia w.
Proof.
  destruct h; simpl.
  - pose proof (theme_state_onToggleClick w) as H.
    rewrite theme_state_toggleTheme in H. by injection H as _ _ ->.
  - by pose proof (theme_state_attachToggle w) as [= _ _ ->].
  - pose proof (theme_state_onSystemChange w) as H.
    by destruct (truthy _); injection H as _ _ ->.
Qed.

End InSync.

Section Steady.
Implicit Types (w : World) (h : Handler) (ev : Event).

Lemma run_runHandlers_app hs1 hs2 w :
  run (runHandlers (hs1 ++ hs2)) w = run (runHandlers hs2) (run (runHandlers hs1) w).
Proof.
  revert w. induction hs1 as [|h hs1 IH]; intros w; [done|].
  rewrite <- app_comm_cons, !run_runHandlers_cons. apply IH.
Qed.

Lemma dispatch_last type h (ls : list (string * Handler)) w :
  run (dispatch type (ls ++ [(type, h)])) w =
    run (runHandler h) (run (dispatch type ls) w).
Proof.
  unfold dispatch. rewrite filter_app, fmap_app, run_runHandlers_app.
  rewrite filter_cons_True by done. simpl.
  exact (run_bind _ (λ _, ret ()) _ () (runHandler_normal h _)).
Qed.

Lemma matchMedia_runHandlers hs w :
  matchMedia (run (runHandlers hs) w) = matchMedia w.
Proof.
  apply (runHandlers_invariant (λ w', matchMedia w' = matchMedia w)); [|done].
  intros h w' <-. apply matchMedia_runHandler.
Qed.

Lemma steady_runHandler h w : steady w → steady (run (runHandler h) w).
Proof.
  intros (Hord & Hinst & Hsync). split; [by apply storage_in_order_runHandler|].
  split; [|by apply in_sync_runHandler].
  unfold change_listener_installed. by rewrite matchMedia_runHandler.
Qed.

Lemma steady_set_readyState s w : steady w → steady (set_readyState s w).
Proof.
  intros (Hord & Hinst & Hsync). split; [exact Hord|]. split; [exact Hinst|].
  eapply in_sync_theme_state; [|exact Hsync]. reflexivity.
Qed.

Lemma shown_runHandlers hs w :
  storage_in_order w → stored_theme_shown w →
  storage_in_order (run (runHandlers hs) w) ∧ stored_theme_shown (run (runHandlers hs) w).
Proof.
  intros Hord Hshown.
  apply (runHandlers_invariant (λ w', storage_in_order w' ∧ stored_theme_shown w'));
    [|done].
  intros h w' [? ?]. split.
  - by apply storage_in_order_runHandler.
  - by apply stored_theme_shown_runHandler.
Qed.

Lemma steady_system_change dark mq w :
  matchMedia w = Some mq → steady w →
  steady (run (dispatch "change" (mq_listeners mq)) (set_matches dark w)).
Proof.
  intros Hmq (Hord & Hinst & Hsync).
  destruct (Hinst mq Hmq) as [ls Hls]. rewrite Hls, dispatch_last.
  set (w1 := set_matches dark w).
  assert (storage_in_order w1 ∧ stored_theme_shown w1) as [Hord1 Hshown1].
  { split; [done|]. by apply in_sync_stored_theme_shown in Hsync. }
  destruct (shown_runHandlers (snd <$> filter (λ p, p.1 = "change") ls) w1 Hord1 Hshown1)
    as [Hord2 Hshown2].
  fold (dispatch "change" ls) in Hord2, Hshown2.
  set (w2 := run (dispatch "change" ls) w1) in *.
  split; [by apply storage_in_order_runHandler|]. split.
  - unfold change_listener_installed.
    rewrite matchMedia_runHandler. subst w2. unfold dispatch.
    rewrite matchMedia_runHandlers. subst w1. unfold set_matches; simpl.
    rewrite Hmq. intros ? [= <-]. by exists ls.
  - destruct Hord2. by apply in_sync_onSystemChange.
Qed.

Lemma steady_fire ev w : steady w → steady (run (fire ev) w).
Proof.
  intros Hw. destruct ev as [r | | dark]; unfold run, fire.
  - destruct (lookup_node r w); [|done].
    by apply (runHandlers_invariant steady steady_runHandler).
  - by apply (runHandlers_invariant steady steady_runHandler), steady_set_readyState.
  - destruct (matchMedia w) as [mq|] eqn:Hmq; [|done].
    by apply steady_system_change.
Qed.

Lemma steady_script w :
  change_listener_supported w → storage_in_order w → steady (run script w).
Proof.
  intros Hsup [Hrel Hwf]. destruct (theme_state_script w) as (Hs & Ha & Hm).
  assert (read_stored (run script w) = read_stored w) as Hread
    by (unfold read_stored, stored_entry; by rewrite Hs).
  split; [|split].
  - split; [by rewrite Hs | unfold well_formed_entry, stored_entry; by rewrite Hs].
  - intros mq Hmq. rewrite Hm in Hmq.
    destruct (matchMedia w) as [mq0|] eqn:E; [|done].
    simpl in Hmq. rewrite (Hsup mq0 E) in Hmq.
    injection Hmq as <-. by eexists.
  - apply in_sync_view. rewrite Ha. f_equal.
    unfold preferred_theme, system_theme. rewrite Hread, Hm.
    destruct (matchMedia w) as [mq0|]; [|done].
    simpl. by destruct (has_addEventListener mq0).
Qed.

End Steady.

(** X6.  On a host whose media query can take the script's listener (it
    has [addEventListener], or there is no [matchMedia]), with a storage
    that does not fault and an entry that is absent, 'dark' or 'light', the
    [data-theme] attribute is kept in step: after the script and any
    sequence of clicks, DOMContentLoaded events and system preference
    changes, it is the stored preference when there is one and the system
    preference otherwise. *)
Theorem attribute_kept_in_sync (w : World) (evs : list Event) :
  change_listener_supported w →
  storage_reliable (localStorage w) → well_formed_entry w →
  in_sync (run (fireAll evs) (run script w)).
Proof.
  intros Hsup Hrel Hwf.
  by apply (fireAll_invariant steady steady_fire), steady_script.
Qed.

Lemma attribute_kept_in_sync_witness :
  let w := run (fireAll [DOMContentLoaded; SystemPreferenceChanged false;
                                  Click (DescRef 1); SystemPreferenceChanged true])
               (run script (page (reliable_storage ∅) true)) in
  in_sync w ∧ stored_entry w = Some "dark" ∧ theme_attribute w = Some "dark".
Proof.
  cbv zeta. split; [|by vm_compute].
  apply attribute_kept_in_sync;
    [by intros mq [= <-] | apply reliable_storage_reliable | by left].
Defined.

(** The first hypothesis is needed: where the media query has no
    [addEventListener] the script throws before the 'change' listener is
    registered, and a later change of the system preference leaves the
    attribute behind. *)
Lemma attribute_stale_without_change_listener :
  let w := run (fireAll [DOMContentLoaded; SystemPreferenceChanged true])
               (run script (legacy_page (reliable_storage ∅) false)) in
  completion getSystemPreference w = Normal (JStr "dark") ∧
  stored_entry w = None ∧
  theme_attribute w = Some "light" ∧
  ¬ in_sync w.
Proof.
  cbv zeta. split; [by vm_compute|]. split; [by vm_compute|]. split; [by vm_compute|].
  intros (stored & sys & Hs & Hsys & Ha).
  vm_compute in Hs, Hsys, Ha.
  injection Hs as <-. injection Hsys as <-. discriminate.
Qed.

(** ** The label of the toggle control *)

Section Label.
Implicit Types (w : World) (h : Handler) (ev : Event) (r : NodeRef).

Lemma label_for_value (v : value) :
  JStr (label_for v) =
    if strict_eq v (JStr "dark") then JStr "Switch to light mode"
    else JStr "Switch to dark mode".
Proof. unfold label_for. by destruct (strict_eq _ _). Qed.

Lemma label_synced_view w :
  label_synced w ↔
  ∀ r e, element_by_id "theme-toggle" w = JElem r → lookup_node r w = Some e →
    attributes e !! "aria-label" = Some (label_for (current_theme w)) ∧
    attributes e !! "title" = Some (label_for (current_theme w)).
Proof.
  split.
  - intros H r e Hr%toggle_control_is He.
    destruct (H r Hr) as (cur & <-%current_is & Hn).
    pose proof (Hn "aria-label" (or_introl eq_refl)) as H1.
    pose proof (Hn "title" (or_intror eq_refl)) as H2.
    rewrite getAttribute_completion, He, <- label_for_value in H1, H2.
    split.
    + destruct (attributes e !! "aria-label"); simpl in H1; congruence.
    + destruct (attributes e !! "title"); simpl in H2; congruence.
  - intros H r Hr%toggle_control_is.
    exists (current_theme w). split; [by apply current_is|].
    destruct (element_by_id_cases "theme-toggle" w) as [? | (r0 & e & Hr0 & He)];
      [congruence|].
    assert (r0 = r) as -> by congruence.
    destruct (H r e Hr He) as [H1 H2].
    intros name [-> | ->]; rewrite getAttribute_completion, He, <- label_for_value.
    + by rewrite H1.
    + by rewrite H2.
Qed.

Lemma label_synced_same w w' :
  element_by_id "theme-toggle" w' = element_by_id "theme-toggle" w →
  (∀ r, lookup_node r w' = lookup_node r w) →
  current_theme w' = current_theme w →
  label_synced w → label_synced w'.
Proof.
  rewrite !label_synced_view. intros Hid Hl Hc H r e. rewrite Hid, Hl, Hc. apply H.
Qed.

Lemma label_synced_updateToggleButton w : label_synced (run updateToggleButton w).
Proof.
  apply label_synced_view. intros r e.
  rewrite element_by_id_updateToggleButton.
  rewrite (current_theme_theme_state _ _ (theme_state_updateToggleButton w)).
  intros Hr. unfold run. rewrite updateToggleButton_eq, Hr. simpl.
  rewrite !lookup_set_node_attribute.
  destruct (lookup_node r w) as [e0|]; simpl; [|done].
  intros [= <-]. simpl.
  split; [by rewrite lookup_insert_ne, lookup_insert_eq | by rewrite lookup_insert_eq].
Qed.

Lemma label_synced_runHandler h w :
  label_synced w → label_synced (run (runHandler h) w).
Proof.
  intros Hw. destruct h; simpl.
  - rewrite run_onToggleClick. apply label_synced_updateToggleButton.
  - rewrite run_attachToggle. apply label_synced_updateToggleButton.
  - rewrite run_onSystemChange. destruct (truthy _); [done|].
    apply label_synced_updateToggleButton.
Qed.

Lemma label_synced_set_matches dark w :
  valid_attribute w → label_synced w → label_synced (set_matches dark w).
Proof.
  intros Hv. apply label_synced_same; [done | by intros [] |].
  destruct Hv as [Hv | Hv];
    by rewrite (current_theme_valid w _ Hv), (current_theme_valid (set_matches dark w) _ Hv);
      auto.
Qed.

Lemma label_synced_install_change_listener w :
  label_synced w → label_synced (install_change_listener w).
Proof.
  unfold install_change_listener.
  destruct (matchMedia w) as [mq|] eqn:E; [|done].
  destruct (has_addEventListener mq); [|done].
  apply label_synced_same; [done | by intros [] |].
  unfold current_theme, system_theme; simpl. by rewrite E.
Qed.

Lemma labelled_fire ev w :
  valid_attribute w ∧ label_synced w →
  valid_attribute (run (fire ev) w) ∧ label_synced (run (fire ev) w).
Proof.
  apply (fire_invariant (λ w, valid_attribute w ∧ label_synced w)).
  - intros h w' [? ?]. split;
      [by apply valid_attribute_runHandler | by apply label_synced_runHandler].
  - intros dark w' [? ?]. split; [done | by apply label_synced_set_matches].
  - intros s w' [? ?]. split; [done|].
    apply (label_synced_same w'); [reflexivity | by intros [] | reflexivity | done].
Qed.

Lemma readyState_initTheme w : readyState (run initTheme w) = readyState w.
Proof.
  rewrite run_initTheme. destruct (is_theme _); [|done].
  unfold run. rewrite setTheme_eq. simpl.
  unfold store_best_effort, remove_best_effort. cbv zeta.
  destruct (is_theme _); [by destruct (setItem_throws _ _ _ _)
                         | by destruct (removeItem_throws _ _ _)].
Qed.

Lemma label_synced_script w :
  readyState w ≠ "loading" → label_synced (run script w).
Proof.
  intros Hrs. rewrite run_script, readyState_initTheme.
  rewrite bool_decide_eq_false_2 by done.
  apply label_synced_install_change_listener.
  rewrite run_attachToggle. apply label_synced_updateToggleButton.
Qed.

(** Frame: no listener touches the document's own listeners. *)
Lemma document_listeners_set_node r name x w :
  document_listeners (set_node_attribute r name x w) = document_listeners w.
Proof.
  unfold set_node_attribute. destruct (lookup_node r w); [|done]. by destruct r.
Qed.

Lemma document_listeners_updateToggleButton w :
  document_listeners (run updateToggleButton w) = document_listeners w.
Proof.
  unfold run. rewrite updateToggleButton_eq. simpl.
  destruct (element_by_id "theme-toggle" w); [done | done |].
  by rewrite !document_listeners_set_node.
Qed.

Lemma document_listeners_setTheme (v : value) w :
  document_listeners (run (setTheme v) w) = document_listeners w.
Proof.
  unfold run. rewrite setTheme_eq. simpl.
  unfold store_best_effort, remove_best_effort. cbv zeta.
  destruct (is_theme _); [by destruct (setItem_throws _ _ _ _)
                         | by destruct (removeItem_throws _ _ _)].
Qed.

Lemma document_listeners_runHandler h w :
  document_listeners (run (runHandler h) w) = document_listeners w.
Proof.
  destruct h; simpl.
  - rewrite run_onToggleClick, document_listeners_updateToggleButton, run_toggleTheme.
    apply document_listeners_setTheme.
  - rewrite run_attachToggle, document_listeners_updateToggleButton.
    destruct (element_by_id "theme-toggle" w) as [| |r]; [done | done |].
    unfold add_node_listener. destruct (lookup_node r w); [|done]. by destruct r.
  - rewrite run_onSystemChange. destruct (truthy _); [done|].
    by rewrite document_listeners_updateToggleButton.
Qed.

Lemma label_synced_DomReady hs w :
  DomReady ∈ hs → label_synced (run (runHandlers hs) w).
Proof.
  revert w. induction hs as [|h hs IH]; intros w Hin; [by apply elem_of_nil in Hin|].
  rewrite run_runHandlers_cons.
  apply elem_of_cons in Hin as [<- | Hin]; [|by apply IH].
  apply (runHandlers_invariant label_synced label_synced_runHandler).
  simpl. rewrite run_attachToggle. apply label_synced_updateToggleButton.
Qed.

Lemma pending_fire ev w :
  valid_attribute w ∧ (label_synced w ∨ ready_listener_installed w) →
  valid_attribute (run (fire ev) w) ∧
  (label_synced (run (fire ev) w) ∨ ready_listener_installed (run (fire ev) w)).
Proof.
  apply (fire_invariant
           (λ w, valid_attribute w ∧ (label_synced w ∨ ready_listener_installed w))).
  - intros h w' [Hv [Hl | Hi]]; (split; [by apply valid_attribute_runHandler|]).
    + left. by apply label_synced_runHandler.
    + right. unfold ready_listener_installed. by rewrite document_listeners_runHandler.
  - intros dark w' [Hv [Hl | Hi]]; (split; [done|]).
    + left. by apply label_synced_set_matches.
    + by right.
  - intros s w' [Hv [Hl | Hi]]; (split; [done|]).
    + left. apply (label_synced_same w'); [reflexivity | by intros [] | reflexivity | done].
    + by right.
Qed.

Lemma labelled_DOMContentLoaded w :
  valid_attribute w ∧ (label_synced w ∨ ready_listener_installed w) →
  valid_attribute (run (fire DOMContentLoaded) w) ∧
  label_synced (run (fire DOMContentLoaded) w).
Proof.
  intros [Hv [Hl | Hi]].
  - by apply labelled_fire.
  - split; [by apply valid_attribute_fire|].
    unfold run, fire. apply label_synced_DomReady.
    apply (list_elem_of_fmap_2 snd _ ("DOMContentLoaded", DomReady)).
    by apply list_elem_of_filter.
Qed.

Lemma pending_script w :
  valid_attribute (run script w) ∧
  (label_synced (run script w) ∨ ready_listener_installed (run script w)).
Proof.
  split; [apply valid_attribute_script|].
  destruct (decide (readyState w = "loading")) as [E | E];
    [|left; by apply label_synced_script].
  right. rewrite run_script, readyState_initTheme.
  rewrite bool_decide_eq_true_2 by done.
  unfold ready_listener_installed, install_change_listener.
  destruct (matchMedia _) as [mq|]; [destruct (has_addEventListener mq)|];
    simpl; apply elem_of_app; right; by apply list_elem_of_singleton.
Qed.

End Label.

(** X7.  For a document whose readyState is not 'loading' when the script
    runs, the toggle control (if there is one) is labelled for the theme in
    force as soon as the script has run, and stays so after any sequence
    of events: its [aria-label] and [title] read "Switch to light mode"
    when [getCurrentTheme] returns 'dark' and "Switch to dark mode"
    otherwise. *)
Theorem label_always_synced (w : World) (evs : list Event) :
  readyState w ≠ "loading" →
  label_synced (run (fireAll evs) (run script w)).
Proof.
  intros Hrs.
  apply (fireAll_invariant (λ w, valid_attribute w ∧ label_synced w) labelled_fire).
  split; [apply valid_attribute_script | by apply label_synced_script].
Qed.

Lemma label_always_synced_witness :
  let w := mkWorld (reliable_storage ∅) (mkElement ∅ []) [toggle_button]
                   "interactive" [] (Some (mkMediaQueryList false [] true)) in
  let w' := run (fireAll [Click (DescRef 0); SystemPreferenceChanged true]) (run script w) in
  label_synced w' ∧
  completion (getAttribute (JElem (DescRef 0)) "aria-label") w'
    = Normal (JStr "Switch to light mode").
Proof.
  cbv zeta. split; [|by vm_compute].
  by apply label_always_synced.
Defined.

(** X8.  For a document that is still loading when the script runs, the
    same holds from the DOMContentLoaded event on: whatever events come
    before and after it, the control is labelled for the theme in force. *)
Theorem label_synced_after_DOMContentLoaded (w : World) (before after : list Event) :
  label_synced (run (fireAll (before ++ DOMContentLoaded :: after)) (run script w)).
Proof.
  rewrite run_fireAll_app, run_fireAll_cons.
  apply (fireAll_invariant (λ w, valid_attribute w ∧ label_synced w) labelled_fire).
  apply labelled_DOMContentLoaded.
  apply (fireAll_invariant
    (λ w, valid_attribute w ∧ (label_synced w ∨ ready_listener_installed w)) pending_fire).
  apply pending_script.
Qed.

(** ** The system-preference listener when nothing is stored *)

(** X9.  When the stored preference is absent or the empty string (or
    cannot be read), the 'change' listener follows the system: after the
    system preference has changed and the listener has run, the attribute is
    the new system preference, the storage is untouched and the control is
    labelled for the new theme. *)
Theorem system_change_followed (w : World) (stored : value) (dark : bool) :
  completion getStoredPreference w = Normal stored →
  truthy stored = false →
  let w' := run onSystemChange (set_matches dark w) in
  ∃ sys, completion getSystemPreference w' = Normal (JStr sys) ∧
    (is_Some (matchMedia w) → sys = if dark then "dark" else "light") ∧
    theme_attribute w' = Some sys ∧
    localStorage w' = localStorage w ∧
    label_synced w'.
Proof.
  intros Hs%stored_is Hfalsy w'. subst w'.
  set (w1 := set_matches dark w).
  assert (read_stored w1 = stored) as Hs1 by done.
  pose proof (theme_state_onSystemChange w1) as H.
  rewrite Hs1, Hfalsy in H. injection H as Hsto Ha Hm.
  exists (system_theme w1). split; [|split; [|split; [|split]]].
  - apply system_is. unfold system_theme. by rewrite Hm.
  - intros [mq Hmq]. subst w1. unfold system_theme, set_matches; simpl.
    rewrite Hmq. by destruct dark.
  - exact Ha.
  - by rewrite Hsto.
  - rewrite run_onSystemChange, Hs1, Hfalsy. apply label_synced_updateToggleButton.
Qed.

Lemma system_change_followed_witness :
  let w := run (fireAll [DOMContentLoaded])
               (run script (page (reliable_storage {[ THEME_STORAGE_KEY := "" ]}) true)) in
  let w' := run onSystemChange (set_matches false w) in
  theme_attribute w = Some "dark" ∧
  theme_attribute w' = Some "light" ∧
  stored_entry w' = Some "" ∧
  completion (getAttribute (JElem (DescRef 1)) "aria-label") w'
    = Normal (JStr "Switch to dark mode").
Proof.
  cbv zeta.
  destruct (system_change_followed
    (run (fireAll [DOMContentLoaded])
         (run script (page (reliable_storage {[ THEME_STORAGE_KEY := "" ]}) true)))
    (JStr "") false) as (sys & Hsys & Hdark & Ha & Hsto & _);
    [by vm_compute | reflexivity |].
  assert (sys = "light") as -> by (apply Hdark; vm_compute; by eexists).
  rewrite Ha. unfold stored_entry. rewrite Hsto.
  repeat split; by vm_compute.
Defined.

(** ** Clicks *)

Lemma next_theme_opposite (w : World) :
  next_theme w = opposite (preferred_theme w).
Proof.
  unfold next_theme, preferred_theme, is_theme, strict_eq.
  destruct (decide (read_stored w = JStr "dark")) as [-> | Hd]; [done|].
  rewrite (bool_decide_eq_false_2 _ Hd).
  destruct (decide (read_stored w = JStr "light")) as [-> | Hl]; [done|].
  by rewrite (bool_decide_eq_false_2 _ Hl).
Qed.

(** X10.  Whenever the attribute is in step with the stored-or-system
    preference, a click on the control flips the theme in force:
    [getCurrentTheme] returns the other theme afterwards, even when the
    storage write fails. *)
Theorem click_flips_theme (w : World) :
  in_sync w →
  ∃ c, completion getCurrentTheme w = Normal (JStr c) ∧
       completion getCurrentTheme (run onToggleClick w)
         = Normal (JStr (if bool_decide (c = "dark") then "light" else "dark")).
Proof.
  intros Hsync%in_sync_view. exists (preferred_theme w). split.
  - apply current_is, current_theme_valid; [done | apply preferred_theme_cases].
  - apply current_is.
    pose proof (theme_state_onToggleClick w) as H.
    rewrite theme_state_toggleTheme in H. injection H as _ Ha _.
    fold (opposite (preferred_theme w)). rewrite <- next_theme_opposite.
    apply current_theme_valid; [done | apply next_theme_cases].
Qed.

Lemma click_flips_theme_witness :
  let w := run initTheme (page (disabled_storage ∅) true) in
  completion getCurrentTheme w = Normal (JStr "dark") ∧
  completion getCurrentTheme (run onToggleClick w) = Normal (JStr "light").
Proof.
  cbv zeta.
  destruct (click_flips_theme (run initTheme (page (disabled_storage ∅) true)))
    as (c & Hc & Hflip).
  - exists JNull, "dark". by vm_compute.
  - assert (c = "dark") as -> by (vm_compute in Hc; congruence).
    split; [exact Hc | exact Hflip].
Defined.

(** X11.  With a storage that does not fault, two calls of [toggleTheme]
    end on the stored preference when it is a theme, and on the system
    preference otherwise, in both the attribute and the stored entry. *)
Theorem toggleTheme_twice (w : World) :
  storage_reliable (localStorage w) →
  let w' := run (toggleTheme;; toggleTheme) w in
  ∃ stored sys,
    completion getStoredPreference w = Normal stored ∧
    completion getSystemPreference w = Normal (JStr sys) ∧
    theme_attribute w' = Some (if is_theme stored then to_string stored else sys) ∧
    stored_entry w' = Some (if is_theme stored then to_string stored else sys).
Proof.
  intros Hrel w'. subst w'.
  exists (read_stored w), (system_theme w).
  split; [by apply stored_is|]. split; [by apply system_is|].
  fold (preferred_theme w).
  rewrite (run_bind _ _ _ _ (toggleTheme_normal w)).
  set (w1 := run toggleTheme w).
  pose proof (theme_state_toggleTheme w) as H1. fold w1 in H1.
  injection H1 as Hs1 Ha1 Hm1.
  assert (read_stored w1 = JStr (next_theme w)) as Hr1
    by by apply (read_stored_after_store _ w).
  assert (storage_reliable (localStorage w1)) as Hrel1.
  { eapply storage_reliable_evolves; [|exact Hrel]. rewrite Hs1.
    apply storage_evolves_store, next_theme_cases. }
  assert (next_theme w1 = preferred_theme w) as Hnext.
  { unfold next_theme at 1. rewrite Hr1, next_theme_opposite.
    destruct (preferred_theme_cases w) as [-> | ->]; by vm_compute. }
  pose proof (theme_state_toggleTheme w1) as H2. rewrite Hnext in H2.
  injection H2 as Hs2 Ha2 _.
  split; [exact Ha2|].
  apply read_stored_entry. by apply (read_stored_after_store _ w1).
Qed.

Lemma toggleTheme_twice_witness :
  let w' := run (toggleTheme;; toggleTheme) (page (reliable_storage ∅) true) in
  theme_attribute w' = Some "dark" ∧ stored_entry w' = Some "dark".
Proof.
  cbv zeta.
  destruct (toggleTheme_twice (page (reliable_storage ∅) true)
              (reliable_storage_reliable _))
    as (stored & sys & Hs & Hsys & Ha & He).
  injection Hs as <-. injection Hsys as <-. by split.
Defined.

(** X12.  [toggleTheme] decides from the stored preference, not from the
    attribute.  When the storage cannot be read, it applies the opposite of
    the system preference every time, so a second call changes nothing. *)
Theorem toggleTheme_unreadable_storage (w : World) :
  (∀ m, getItem_throws (localStorage w) m THEME_STORAGE_KEY = true) →
  run (toggleTheme;; toggleTheme) w = run toggleTheme w ∧
  ∃ sys, completion getSystemPreference w = Normal (JStr sys) ∧
    theme_attribute (run toggleTheme w)
      = Some (if bool_decide (sys = "dark") then "light" else "dark").
Proof.
  intros Hget.
  assert (∀ w', getItem_throws (localStorage w') = getItem_throws (localStorage w) →
                matchMedia w' = matchMedia w →
                next_theme w' = opposite (system_theme w)) as Hnext.
  { intros w' Hg Hm. unfold next_theme, read_stored, system_theme. cbv zeta.
    by rewrite Hg, Hget, Hm. }
  pose proof (theme_state_toggleTheme w) as H1. injection H1 as Hs1 _ Hm1.
  assert (next_theme (run toggleTheme w) = opposite (system_theme w)) as Hnext1.
  { apply Hnext; [|done]. rewrite Hs1.
    unfold store_best_effort. cbv zeta. by destruct (setItem_throws _ _ _ _). }
  split.
  - rewrite (run_bind _ _ _ _ (toggleTheme_normal w)).
    rewrite (run_toggleTheme (run toggleTheme w)), Hnext1.
    rewrite run_toggleTheme, (Hnext w eq_refl eq_refl).
    set (v := JStr (opposite (system_theme w))).
    etrans; [|apply (setTheme_twice v w)]. symmetry.
    exact (run_bind (setTheme v) (λ _, setTheme v) w () (setTheme_normal v w)).
  - exists (system_theme w). split; [by apply system_is|].
    pose proof (theme_state_toggleTheme w) as H. injection H as _ Ha _.
    by rewrite Ha, (Hnext w eq_refl eq_refl).
Qed.

Lemma toggleTheme_unreadable_storage_witness :
  let w := page (disabled_storage ∅) true in
  theme_attribute (run toggleTheme w) = Some "light" ∧
  theme_attribute (run (toggleTheme;; toggleTheme) w) = Some "light".
Proof.
  cbv zeta.
  destruct (toggleTheme_unreadable_storage (page (disabled_storage ∅) true))
    as (Htwice & sys & Hsys & Ha); [done|].
  injection Hsys as <-. rewrite Htwice. by split.
Defined.

(** ** The single functions at their edges *)

(** X13.  [getSystemPreference] never throws and changes nothing; on a host
    without [window.matchMedia] it returns 'light'; otherwise it returns
    'dark' exactly when the media query matches. *)
Theorem getSystemPreference_cases (w : World) :
  run getSystemPreference w = w ∧
  (matchMedia w = None → completion getSystemPreference w = Normal (JStr "light")) ∧
  (∀ mq, matchMedia w = Some mq →
     completion getSystemPreference w
       = Normal (JStr (if matches mq then "dark" else "light"))) ∧
  (completion getSystemPreference w = Normal (JStr "dark") ∨
   completion getSystemPreference w = Normal (JStr "light")).
Proof.
  unfold run, completion. rewrite getSystemPreference_eq. simpl.
  split; [done|]. unfold system_theme. split; [by intros ->|].
  split; [by intros mq ->|].
  destruct (from_option _ _ _); auto.
Qed.

(** X14.  The attribute is authoritative for the page: after
    [setTheme('dark')] or [setTheme('light')], [getCurrentTheme] returns
    that theme whatever the storage does and whatever the system prefers;
    after [setTheme] of anything else it returns the system preference. *)
Theorem getCurrentTheme_after_setTheme (w : World) :
  (∀ x, x = "dark" ∨ x = "light" →
     completion (setTheme (JStr x);; getCurrentTheme) w = Normal (JStr x)) ∧
  (∀ v, v ≠ JStr "dark" → v ≠ JStr "light" →
     completion (setTheme v;; getCurrentTheme) w = completion getSystemPreference w).
Proof.
  split.
  - intros x Hx.
    rewrite (completion_bind _ _ _ _ (setTheme_normal (JStr x) w)).
    apply current_is, current_theme_valid; [|done].
    by apply theme_attribute_setTheme, is_theme_JStr.
  - intros v Hd Hl.
    rewrite (completion_bind _ _ _ _ (setTheme_normal v w)).
    assert (is_theme v = false) as Hv by by apply is_theme_false.
    unfold completion at 2. rewrite getSystemPreference_eq. simpl.
    apply current_is.
    unfold run. rewrite setTheme_eq, Hv. simpl.
    set (w' := remove_best_effort _ _).
    assert (theme_attribute w' = None) as Ha
      by (subst w'; by rewrite theme_attribute_remove, theme_attribute_remove_root).
    assert (matchMedia w' = matchMedia w) as Hm.
    { subst w'. unfold remove_best_effort. cbv zeta.
      by destruct (removeItem_throws _ _ _). }
    unfold current_theme, system_theme. by rewrite Ha, Hm.
Qed.

(** X15.  [setTheme] compares its argument with the two literals only:
    any other value, such as 'Dark' or the empty string, acts as [null]: it
    removes the attribute and, when the removal does not throw, the stored
    entry. *)
Theorem setTheme_other_values (w : World) (v : value) :
  v ≠ JStr "dark" → v ≠ JStr "light" →
  setTheme v w = setTheme JNull w ∧
  theme_attribute (run (setTheme v) w) = None ∧
  (removeItem_throws (localStorage w) (items (localStorage w)) THEME_STORAGE_KEY = false →
   stored_entry (run (setTheme v) w) = None).
Proof.
  intros Hd Hl.
  assert (is_theme v = false) as Hv by by apply is_theme_false.
  split; [by rewrite !setTheme_eq, Hv|].
  unfold run. rewrite setTheme_eq, Hv. simpl.
  split; [by rewrite theme_attribute_remove, theme_attribute_remove_root|].
  intros Hok. unfold remove_best_effort, stored_entry; simpl. rewrite Hok; simpl.
  apply lookup_delete_eq.
Qed.

Lemma setTheme_other_values_witness :
  let w := run (setTheme (JStr "Dark"))
               (run (setTheme (JStr "dark")) (page (reliable_storage ∅) false)) in
  theme_attribute w = None ∧ stored_entry w = None.
Proof.
  cbv zeta.
  destruct (setTheme_other_values
    (run (setTheme (JStr "dark")) (page (reliable_storage ∅) false)) (JStr "Dark"))
    as (_ & Ha & Hs); [discriminate | discriminate |].
  split; [exact Ha | by apply Hs].
Defined.

(** ** Registration of the click listener *)

Section Listeners.
Implicit Types (w : World) (r : NodeRef) (e : Element).

Lemma node_listeners_update_node r r' e e' w :
  lookup_node r' w = Some e → listeners e' = listeners e →
  node_listeners r (update_node r' e' w) = node_listeners r w.
Proof.
  intros He Hl. unfold node_listeners.
  destruct r as [|i], r' as [|j]; simpl in *; try done.
  - injection He as <-. by rewrite Hl.
  - destruct (decide (j = i)) as [-> | Hne].
    + rewrite list_lookup_insert_eq by by eapply lookup_lt_Some.
      rewrite He. simpl. by rewrite Hl.
    + by rewrite list_lookup_insert_ne.
Qed.

Lemma node_listeners_set_node r r' name x w :
  node_listeners r (set_node_attribute r' name x w) = node_listeners r w.
Proof.
  unfold set_node_attribute. destruct (lookup_node r' w) as [e|] eqn:E; [|done].
  by eapply node_listeners_update_node.
Qed.

Lemma node_listeners_updateToggleButton r w :
  node_listeners r (run updateToggleButton w) = node_listeners r w.
Proof.
  unfold run. rewrite updateToggleButton_eq. simpl.
  destruct (element_by_id "theme-toggle" w); [done | done |].
  by rewrite !node_listeners_set_node.
Qed.

Lemma node_listeners_setTheme r (v : value) w :
  node_listeners r (run (setTheme v) w) = node_listeners r w.
Proof.
  unfold run. rewrite setTheme_eq. simpl. destruct (is_theme v).
  - etrans; [|apply (node_listeners_set_node r RootRef THEME_ATTRIBUTE (to_string v) w)].
    unfold store_best_effort. cbv zeta. by destruct (setItem_throws _ _ _ _).
  - etrans; [|apply (node_listeners_update_node r RootRef (documentElement w)
                       (mkElement (delete THEME_ATTRIBUTE (attributes (documentElement w)))
                                  (listeners (documentElement w))) w); done].
    unfold remove_best_effort. cbv zeta. by destruct (removeItem_throws _ _ _).
Qed.

Lemma node_listeners_initTheme r w :
  node_listeners r (run initTheme w) = node_listeners r w.
Proof.
  rewrite run_initTheme. destruct (is_theme _).
  - apply node_listeners_setTheme.
  - apply (node_listeners_set_node r RootRef).
Qed.

Lemma document_listeners_initTheme w :
  document_listeners (run initTheme w) = document_listeners w.
Proof.
  rewrite run_initTheme. destruct (is_theme _); [|done].
  apply document_listeners_setTheme.
Qed.

Lemma node_listeners_attachToggle r w :
  element_by_id "theme-toggle" w = JElem r →
  node_listeners r (run attachToggle w) =
    (λ l, (l ++ [("click", ClickToggle)])%list) <$> node_listeners r w.
Proof.
  intros Hr. rewrite run_attachToggle, Hr, node_listeners_updateToggleButton.
  unfold node_listeners, add_node_listener.
  destruct (lookup_node r w) as [e|] eqn:E; simpl; [|by rewrite E].
  rewrite lookup_update_node by by rewrite E. done.
Qed.

Lemma node_listeners_install_change_listener r w :
  node_listeners r (install_change_listener w) = node_listeners r w.
Proof.
  unfold install_change_listener. destruct (matchMedia w) as [mq|]; [|done].
  destruct (has_addEventListener mq); [|done]. by destruct r.
Qed.

Lemma document_listeners_install_change_listener w :
  document_listeners (install_change_listener w) = document_listeners w.
Proof.
  unfold install_change_listener. destruct (matchMedia w) as [mq|]; [|done].
  by destruct (has_addEventListener mq).
Qed.

Lemma element_by_id_install_change_listener id w :
  element_by_id id (install_change_listener w) = element_by_id id w.
Proof.
  unfold install_change_listener. destruct (matchMedia w) as [mq|]; [|done].
  by destruct (has_addEventListener mq).
Qed.

(** After the script and the DOMContentLoaded event, the control carries
    one more listener than before. *)
Lemma node_listeners_loaded r w :
  element_by_id "theme-toggle" w = JElem r →
  document_listeners w = [] →
  node_listeners r (run (fireAll [DOMContentLoaded]) (run script w)) =
    (λ l, (l ++ [("click", ClickToggle)])%list) <$> node_listeners r w.
Proof.
  intros Hr Hdoc.
  rewrite run_fireAll_cons. simpl fireAll. unfold ret, run at 1.
  simpl. unfold run at 1, fire.
  pose proof (element_by_id_initTheme "theme-toggle" w) as Hr1. rewrite Hr in Hr1.
  rewrite run_script, readyState_initTheme.
  destruct (decide (readyState w = "loading")) as [E | E].
  - rewrite bool_decide_eq_true_2 by done.
    rewrite document_listeners_install_change_listener. simpl.
    rewrite document_listeners_initTheme, Hdoc. simpl.
    unfold dispatch. rewrite filter_cons_True by done. rewrite filter_nil. simpl.
    fold (run (attachToggle;; ret ()) (set_readyState "interactive"
            (install_change_listener (install_ready_listener (run initTheme w))))).
    rewrite (run_bind _ _ _ _ (attachToggle_normal _)). unfold ret, run at 1. simpl.
    rewrite node_listeners_attachToggle.
    + f_equal. etrans; [|apply (node_listeners_initTheme r w)].
      etrans; [|apply (node_listeners_install_change_listener r
                         (install_ready_listener (run initTheme w)))].
      unfold node_listeners. by destruct r.
    + etrans; [|exact Hr1].
      etrans; [|apply (element_by_id_install_change_listener _
                         (install_ready_listener (run initTheme w)))].
      done.
  - rewrite bool_decide_eq_false_2 by done.
    rewrite document_listeners_install_change_listener.
    rewrite (document_listeners_runHandler DomReady), document_listeners_initTheme, Hdoc.
    unfold dispatch. rewrite filter_nil. simpl. unfold ret. simpl.
    etrans; [|by rewrite <- (node_listeners_initTheme r w),
                         <- (node_listeners_attachToggle r _ Hr1)].
    etrans; [|apply (node_listeners_install_change_listener r
                       (run attachToggle (run initTheme w)))].
    unfold node_listeners. by destruct r.
Qed.

End Listeners.

(** X16.  Whichever branch the script takes on [document.readyState], the
    click listener is attached to the toggle control exactly once by the
    time the DOMContentLoaded event has been handled (for a document that
    had no listener of its own): the control carries one more listener, and
    a click on a control without other listeners runs the toggle once. *)
Theorem click_listener_attached_once (w : World) (r : NodeRef) (e : Element) :
  toggle_control w = Normal (JElem r) →
  lookup_node r w = Some e →
  document_listeners w = [] →
  let w' := run (fireAll [DOMContentLoaded]) (run script w) in
  (∃ e', lookup_node r w' = Some e' ∧
         listeners e' = (listeners e ++ [("click", ClickToggle)])%list) ∧
  (listeners e = [] → run (fire (Click r)) w' = run onToggleClick w').
Proof.
  intros Hr%toggle_control_is He Hdoc w'.
  pose proof (node_listeners_loaded r w Hr Hdoc) as H. fold w' in H.
  unfold node_listeners in H. rewrite He in H. simpl in H.
  destruct (lookup_node r w') as [e'|] eqn:He'; [|done].
  injection H as Hl. split; [by exists e'|].
  intros Hnil. unfold run at 1, fire. rewrite He', Hl, Hnil. simpl.
  unfold dispatch. rewrite filter_cons_True by done. rewrite filter_nil. simpl.
  fold (run (onToggleClick;; ret ()) w').
  by rewrite (run_bind _ _ _ _ (onToggleClick_normal w')).
Qed.

Lemma click_listener_attached_once_witness :
  let loading := page (reliable_storage ∅) true in
  let parsed := set_readyState "interactive" loading in
  node_listeners (DescRef 1) (run (fireAll [DOMContentLoaded]) (run script loading))
    = Some [("click", ClickToggle)] ∧
  node_listeners (DescRef 1) (run (fireAll [DOMContentLoaded]) (run script parsed))
    = Some [("click", ClickToggle)].
Proof.
  cbv zeta. unfold node_listeners. split.
  - destruct (click_listener_attached_once (page (reliable_storage ∅) true)
                (DescRef 1) toggle_button) as [(e' & He' & Hl) _]; [done | done | done |].
    rewrite He'. simpl. by rewrite Hl.
  - destruct (click_listener_attached_once
                (set_readyState "interactive" (page (reliable_storage ∅) true))
                (DescRef 1) toggle_button) as [(e' & He' & Hl) _]; [done | done | done |].
    rewrite He'. simpl. by rewrite Hl.
Defined.
